(** * Temporal smoothing of the face-mask status

    A shallow embedding of [apply_temporal_smoothing] (the status
    stabiliser of the face mask detector) together with the properties of
    its lock / streak state machine.

    Conventions of the embedding.
    - [mask_status_t] is the C enumeration, with [status_to_int] giving the
      enumerator values.
    - A C [int] is a [Z]; every increment and decrement is passed through
      [wrap32], the two's complement wrap-around of a 32-bit [int] (C
      leaves signed overflow undefined; [no_overflow_from_start] shows
      that no run of fewer than [INT_MAX] calls gets there, and
      [apply_temporal_smoothing_strict] is the function under the C
      rule, undefined where a counter would leave [int]).
    - [face_detection_t* face] is an [option face_detection_t] ([None] is
      the null pointer); the function returns the record as it is left
      behind the pointer.
    - The [static] locals of the function live in the record [statics],
      which is threaded through every call, whatever face the call is for.
    - [log_info] appends the format string and its arguments to
      [log_output].

    Around the stabiliser the development also embeds its caller
    [detect_faces] (the cascades and the classifiers being given with the
    frame), the decision of [classify_mask_simple_reliable] over its
    measurements, [draw_detections] as the list of its drawing calls,
    [handle_key_input], [mask_status_to_string], the regions of
    image_processing.c ([create_roi], [is_valid_roi], the rectangle of
    [crop_face_region]) and the logging system of utils.c (module
    [Logging]). *)

From Stdlib Require Import ZArith String List Lia Floats.
From stdpp Require Import base decidable list.
Import ListNotations.
Local Open Scope Z_scope.

(** ** Data model *)

(** [mask_status_t] of face_mask_detector.h. *)
Inductive mask_status_t : Type :=
  | MASK_STATUS_UNKNOWN
  | MASK_STATUS_WITH_MASK
  | MASK_STATUS_WITHOUT_MASK
  | MASK_STATUS_INCORRECT_MASK.

#[global] Instance mask_status_eq_dec : EqDecision mask_status_t.
Proof. solve_decision. Defined.

(** The enumerator values, used when a status is stored in an [int]. *)
Definition status_to_int (m : mask_status_t) : Z :=
  match m with
  | MASK_STATUS_UNKNOWN => 0
  | MASK_STATUS_WITH_MASK => 1
  | MASK_STATUS_WITHOUT_MASK => 2
  | MASK_STATUS_INCORRECT_MASK => 3
  end.

(** [face_detection_t] of face_mask_detector.h. *)
Record face_detection_t : Type := mk_face {
  x : Z;
  y : Z;
  width : Z;
  height : Z;
  confidence : float;
  mask_status : mask_status_t;
  mask_confidence : float;
  mask_history : list Z;          (* int mask_history[10] *)
  history_index : Z;
  history_count : Z;
  stable_status : mask_status_t;
  stable_count : Z
}.

(** Two's complement wrap-around of a 32-bit [int]. *)
Definition wrap32 (z : Z) : Z := (z + 2 ^ 31) mod 2 ^ 32 - 2 ^ 31.

(** One call of [log_info]: the format string and the variadic arguments. *)
Inductive log_arg : Type :=
  | ArgStr (s : string)
  | ArgInt (n : Z).

Record log_call : Type := mk_log { log_format : string; log_args : list log_arg }.

(** The [static] locals of [apply_temporal_smoothing], with the lines it
    has logged so far (oldest first). *)
Record statics : Type := mk_statics {
  current_locked_status : mask_status_t;
  lock_frames_remaining : Z;
  same_result_count : Z;
  previous_result : mask_status_t;
  debug_frame_count : Z;
  log_output : list log_call
}.

(** The initialisers of the [static] locals. *)
Definition initial_statics : statics :=
  {| current_locked_status := MASK_STATUS_UNKNOWN;
     lock_frames_remaining := 0;
     same_result_count := 0;
     previous_result := MASK_STATUS_UNKNOWN;
     debug_frame_count := 0;
     log_output := [] |}.

Definition set_locked (v : mask_status_t) (s : statics) : statics :=
  {| current_locked_status := v;
     lock_frames_remaining := lock_frames_remaining s;
     same_result_count := same_result_count s;
     previous_result := previous_result s;
     debug_frame_count := debug_frame_count s;
     log_output := log_output s |}.

Definition set_remaining (v : Z) (s : statics) : statics :=
  {| current_locked_status := current_locked_status s;
     lock_frames_remaining := v;
     same_result_count := same_result_count s;
     previous_result := previous_result s;
     debug_frame_count := debug_frame_count s;
     log_output := log_output s |}.

Definition set_count (v : Z) (s : statics) : statics :=
  {| current_locked_status := current_locked_status s;
     lock_frames_remaining := lock_frames_remaining s;
     same_result_count := v;
     previous_result := previous_result s;
     debug_frame_count := debug_frame_count s;
     log_output := log_output s |}.

Definition set_previous (v : mask_status_t) (s : statics) : statics :=
  {| current_locked_status := current_locked_status s;
     lock_frames_remaining := lock_frames_remaining s;
     same_result_count := same_result_count s;
     previous_result := v;
     debug_frame_count := debug_frame_count s;
     log_output := log_output s |}.

Definition set_debug (v : Z) (s : statics) : statics :=
  {| current_locked_status := current_locked_status s;
     lock_frames_remaining := lock_frames_remaining s;
     same_result_count := same_result_count s;
     previous_result := previous_result s;
     debug_frame_count := v;
     log_output := log_output s |}.

Definition log_info (fmt : string) (args : list log_arg) (s : statics) : statics :=
  {| current_locked_status := current_locked_status s;
     lock_frames_remaining := lock_frames_remaining s;
     same_result_count := same_result_count s;
     previous_result := previous_result s;
     debug_frame_count := debug_frame_count s;
     log_output := log_output s ++ [mk_log fmt args] |}.

(** ** The function, block by block *)

(** [for (int i = 0; i < 10; i++) face->mask_history[i] = current_status;]
    with [n] iterations left and the loop counter at [i]. *)
Fixpoint fill_history (n : nat) (i : Z) (v : Z) (h : list Z) : list Z :=
  match n with
  | O => h
  | S n' => fill_history n' (i + 1) v (<[Z.to_nat i := v]> h)
  end.

(** The first call for a face: the history buffer and the stable status
    are seeded with the current status. *)
Definition init_history (current_status : mask_status_t)
    (face : face_detection_t) : face_detection_t :=
  {| x := x face; y := y face; width := width face; height := height face;
     confidence := confidence face;
     mask_status := mask_status face;
     mask_confidence := mask_confidence face;
     mask_history := fill_history 10 0 (status_to_int current_status) (mask_history face);
     history_index := 0;
     history_count := 1;
     stable_status := current_status;
     stable_count := 1 |}.

(** "Count consecutive identical results". *)
Definition count_consecutive (current_status : mask_status_t) (s : statics) : statics :=
  if decide (current_status = previous_result s)
  then set_count (wrap32 (same_result_count s + 1)) s
  else set_previous current_status (set_count 1 s).

(** [(current_status == MASK_STATUS_WITH_MASK) ? 90 : 60] *)
Definition lock_duration (current_status : mask_status_t) : Z :=
  if decide (current_status = MASK_STATUS_WITH_MASK) then 90 else 60.

(** The labels of the two diagnostic lines. *)
Definition status_label (m : mask_status_t) : string :=
  if decide (m = MASK_STATUS_WITH_MASK) then "MASK"
  else if decide (m = MASK_STATUS_WITHOUT_MASK) then "NO-MASK"
  else "UNKNOWN".

Definition locked_label (m : mask_status_t) : string :=
  if decide (m = MASK_STATUS_WITH_MASK) then "MASK" else "NO-MASK".

(** "Debug output every second or so": [++debug_frame_count % 30 == 0]. *)
Definition debug_output (current_status : mask_status_t) (s : statics) : statics :=
  let s1 := set_debug (wrap32 (debug_frame_count s + 1)) s in
  if decide (Z.rem (debug_frame_count s1) 30 = 0) then
    let s2 := log_info "Detection status: %s (count: %d)"
                [ArgStr (status_label current_status); ArgInt (same_result_count s1)] s1 in
    if decide (current_locked_status s2 <> MASK_STATUS_UNKNOWN) then
      log_info "Locked to: %s, frames left: %d"
        [ArgStr (locked_label (current_locked_status s2));
         ArgInt (lock_frames_remaining s2)] s2
    else s2
  else s1.

(** The tail of the function, reached when no branch of the locking logic
    has returned: the debug output, then the stable status of the face if
    there is one, else the current status. *)
Definition fallback (face : face_detection_t) (current_status : mask_status_t)
    (s : statics) : mask_status_t * option face_detection_t * statics :=
  let s' := debug_output current_status s in
  if decide (stable_status face <> MASK_STATUS_UNKNOWN)
  then (stable_status face, Some face, s')
  else (current_status, Some face, s').

(** "Handle status locking logic", after the streak has been counted. *)
Definition locking_logic (face : face_detection_t) (current_status : mask_status_t)
    (s : statics) : mask_status_t * option face_detection_t * statics :=
  if decide (current_locked_status s <> MASK_STATUS_UNKNOWN) then
    let s1 := set_remaining (wrap32 (lock_frames_remaining s - 1)) s in
    if decide (lock_frames_remaining s1 > 0) then
      if decide (current_locked_status s1 = MASK_STATUS_WITH_MASK
                 /\ current_status = MASK_STATUS_WITHOUT_MASK
                 /\ same_result_count s1 >= 8) then
        let s2 := set_remaining 60 (set_locked current_status s1) in
        (current_locked_status s2, Some face, s2)
      else (current_locked_status s1, Some face, s1)
    else
      if decide (same_result_count s1 >= 12
                 /\ current_status <> current_locked_status s1) then
        let s2 := set_remaining (lock_duration current_status)
                    (set_locked current_status s1) in
        (current_locked_status s2, Some face, s2)
      else if decide (same_result_count s1 < 12) then
        let s2 := set_remaining 20 s1 in
        (current_locked_status s2, Some face, s2)
      else fallback face current_status s1
  else
    if decide (same_result_count s >= 5) then
      let s2 := set_remaining (lock_duration current_status)
                  (set_locked current_status s) in
      (current_locked_status s2, Some face, s2)
    else fallback face current_status s.

(** [mask_status_t apply_temporal_smoothing(face_detection_t* face,
    mask_status_t current_status)]: the returned status, the face record
    behind the pointer after the call, and the [static] locals after the
    call. *)
Definition apply_temporal_smoothing (face : option face_detection_t)
    (current_status : mask_status_t) (s : statics)
    : mask_status_t * option face_detection_t * statics :=
  match face with
  | None => (current_status, None, s)
  | Some f =>
      if decide (history_count f = 0)
      then (current_status, Some (init_history current_status f), s)
      else locking_logic f current_status (count_consecutive current_status s)
  end.

(** ** Reading a call *)

(** The three components of the result of a call (or of a sequence of
    calls): what was returned, the face record and the static locals. *)
Definition returned {A : Type} (out : A * option face_detection_t * statics)
  : A := out.1.1.

Definition face_after {A : Type} (out : A * option face_detection_t * statics)
  : option face_detection_t := out.1.2.

Definition statics_after {A : Type} (out : A * option face_detection_t * statics)
  : statics := out.2.

(** The streak as the locking logic sees it: [same_result_count] once the
    consecutive results have been counted. *)
Definition streak_after (current_status : mask_status_t) (s : statics) : Z :=
  same_result_count (count_consecutive current_status s).

(** The countdown as the locking logic sees it under an active lock:
    [lock_frames_remaining] after [lock_frames_remaining--]. *)
Definition remaining_after_decrement (s : statics) : Z :=
  wrap32 (lock_frames_remaining s - 1).

(** An element of [g_app_state.detections], which is zero-initialised. *)
Definition zero_face : face_detection_t :=
  {| x := 0; y := 0; width := 0; height := 0;
     confidence := 0%float;
     mask_status := MASK_STATUS_UNKNOWN;
     mask_confidence := 0%float;
     mask_history := replicate 10 0;
     history_index := 0;
     history_count := 0;
     stable_status := MASK_STATUS_UNKNOWN;
     stable_count := 0 |}.

(** ** Sequences of calls *)

(** The calls for one face, one raw status per frame: the statuses
    returned, the face and the static locals after the last call. *)
Fixpoint feed (raws : list mask_status_t) (face : option face_detection_t)
    (s : statics) : list mask_status_t * option face_detection_t * statics :=
  match raws with
  | [] => ([], face, s)
  | r :: raws' =>
      let out := apply_temporal_smoothing face r s in
      let rest := feed raws' (face_after out) (statics_after out) in
      (returned out :: returned rest, face_after rest, statics_after rest)
  end.

(** Calls for arbitrary faces (null, fresh or already seeded), as the
    static locals see them: only the static locals are kept. *)
Definition call_statics (s : statics)
    (c : option face_detection_t * mask_status_t) : statics :=
  statics_after (apply_temporal_smoothing c.1 c.2 s).

Definition run_calls (calls : list (option face_detection_t * mask_status_t))
    (s : statics) : statics :=
  fold_left call_statics calls s.

(** The counters after at most [k] calls: the streak and the debug
    counter have been incremented at most [k] times, the countdown
    decremented at most [k] times from a value of at most 90. *)
Definition counters_bounded (k : Z) (s : statics) : Prop :=
  0 <= same_result_count s <= k
  /\ - k <= lock_frames_remaining s <= 90
  /\ 0 <= debug_frame_count s <= k.

(** ** The caller: [detect_faces] *)

(** [cv::Rect], as the cascades return it. *)
Record rect_t : Type := mk_rect {
  rect_x : Z;
  rect_y : Z;
  rect_width : Z;
  rect_height : Z
}.

(** What the classification of one face leaves in [raw_mask_status] and
    [mask_confidence] ([classify_mask] with a model loaded,
    [classify_mask_simple_reliable] with the confidence 0.80 otherwise),
    with the lines the classifier logged meanwhile. *)
Record classification : Type := mk_classification {
  raw_mask_status : mask_status_t;
  raw_mask_confidence : float;
  classifier_log : list log_call
}.

(** One frame, as far as [detect_faces] looks at it through OpenCV:
    whether it is empty, the rectangles the cascades find ([None] when
    OpenCV throws a [cv::Exception], which the function catches, with
    [exception_what] the text of [e.what()]), and the classification of
    the face in slot [i] with rectangle [r]. *)
Record frame_t : Type := mk_frame {
  frame_empty : bool;
  face_rects : option (list rect_t);
  exception_what : string;
  classify : nat -> rect_t -> classification
}.

(** The [static] locals of [detect_faces], with those of
    [apply_temporal_smoothing], which also carry the log. *)
Record detect_statics : Type := mk_detect_statics {
  smoothing : statics;
  face_debug_counter : Z;
  last_face_count : Z
}.

Definition initial_detect_statics : detect_statics :=
  {| smoothing := initial_statics;
     face_debug_counter := 0;
     last_face_count := -1 |}.

(** [log_error], recorded with the calls of [log_info]: [log_output]
    keeps the calls of the logging functions in the order they are
    made. *)
Definition log_error (fmt : string) (args : list log_arg) (s : statics) : statics :=
  log_info fmt args s.

(** [log_info] called with each of the given lines in turn. *)
Definition log_lines (lines : list log_call) (s : statics) : statics :=
  fold_left (fun s l => log_info (log_format l) (log_args l) s) lines s.

(** [faces[i].x = face_rects[i].x; ... faces[i].confidence = 1.0f;] *)
Definition set_rect (r : rect_t) (f : face_detection_t) : face_detection_t :=
  {| x := rect_x r; y := rect_y r; width := rect_width r; height := rect_height r;
     confidence := 1%float;
     mask_status := mask_status f;
     mask_confidence := mask_confidence f;
     mask_history := mask_history f;
     history_index := history_index f;
     history_count := history_count f;
     stable_status := stable_status f;
     stable_count := stable_count f |}.

(** [faces[i].mask_status = smooth_status; faces[i].mask_confidence =
    mask_confidence;] *)
Definition set_mask (m : mask_status_t) (c : float) (f : face_detection_t)
    : face_detection_t :=
  {| x := x f; y := y f; width := width f; height := height f;
     confidence := confidence f;
     mask_status := m;
     mask_confidence := c;
     mask_history := mask_history f;
     history_index := history_index f;
     history_count := history_count f;
     stable_status := stable_status f;
     stable_count := stable_count f |}.

(** The lines of "Debug face detection with cascade info". *)
Definition face_debug_lines (rects : list rect_t) (max_faces : Z) : list log_call :=
  [mk_log "*** FACE DETECTION DEBUG ***" [];
   mk_log "Detected %d faces (max=%d)"
     [ArgInt (wrap32 (Z.of_nat (length rects))); ArgInt max_faces]]
  ++ (if decide (length rects = 0%nat) then
        [mk_log "NO FACES DETECTED - Tried multiple cascades" [];
         mk_log "TROUBLESHOOTING:" [];
         mk_log "- Remove glasses temporarily to test" [];
         mk_log "- Ensure good lighting" [];
         mk_log "- Face camera directly" [];
         mk_log "- Move closer/farther from camera" []]
      else
        mk_log "SUCCESS: Face detection working" []
        :: imap (fun i r =>
                   mk_log "Face %zu: x=%d y=%d w=%d h=%d"
                     [ArgInt (Z.of_nat i); ArgInt (rect_x r); ArgInt (rect_y r);
                      ArgInt (rect_width r); ArgInt (rect_height r)])
             (take 3 rects))
  ++ [mk_log "**************************" []].

(** [if (++face_debug_counter % 30 == 0 || (int)face_rects.size() !=
    last_face_count) { ... last_face_count = (int)face_rects.size(); }] *)
Definition face_debug (rects : list rect_t) (max_faces : Z) (ds : detect_statics)
    : detect_statics :=
  let counter := wrap32 (face_debug_counter ds + 1) in
  let size := wrap32 (Z.of_nat (length rects)) in
  if decide (Z.rem counter 30 = 0 \/ size <> last_face_count ds) then
    {| smoothing := log_lines (face_debug_lines rects max_faces) (smoothing ds);
       face_debug_counter := counter;
       last_face_count := size |}
  else
    {| smoothing := smoothing ds;
       face_debug_counter := counter;
       last_face_count := last_face_count ds |}.

(** The body of the loop over the faces, for slot [i]. *)
Definition detect_one (frame : frame_t) (i : nat) (r : rect_t)
    (f : face_detection_t) (s : statics) : face_detection_t * statics :=
  let f1 := set_rect r f in
  let c := classify frame i r in
  let s1 := log_lines (classifier_log c) s in
  let out := apply_temporal_smoothing (Some f1) (raw_mask_status c) s1 in
  let f2 := match face_after out with Some f2 => f2 | None => f1 end in
  (set_mask (returned out) (raw_mask_confidence c) f2, statics_after out).

(** [for (int i = 0; i < count; i++) { ... }], with [n] iterations left
    and the loop counter at [i].  An index outside [face_rects] or
    outside the array behind [faces] is undefined in C; the embedding
    leaves such a slot alone. *)
Fixpoint detect_loop (n : nat) (i : nat) (frame : frame_t) (rects : list rect_t)
    (faces : list face_detection_t) (s : statics)
    : list face_detection_t * statics :=
  match n with
  | O => (faces, s)
  | S n' =>
      match rects !! i, faces !! i with
      | Some r, Some f =>
          let fs := detect_one frame i r f s in
          detect_loop n' (S i) frame rects (<[i := fs.1]> faces) fs.2
      | _, _ => detect_loop n' (S i) frame rects faces s
      end
  end.

(** [int detect_faces(app_state_t* state, const cv::Mat& frame,
    face_detection_t* faces, int max_faces)]: the count returned, the
    array behind [faces] and the static locals after the call.
    [state_null] says whether [state] is the null pointer; [faces] is
    [None] for the null pointer. *)
Definition detect_faces (state_null : bool) (frame : frame_t)
    (faces : option (list face_detection_t)) (max_faces : Z) (ds : detect_statics)
    : Z * option (list face_detection_t) * detect_statics :=
  match faces with
  | None => (0, faces, ds)
  | Some fs =>
      if state_null || frame_empty frame || bool_decide (max_faces <= 0)
      then (0, faces, ds)
      else
        match face_rects frame with
        | None =>
            (* catch (const cv::Exception& e) *)
            (0, faces,
             {| smoothing :=
                  log_error "OpenCV exception in face detection: %s"
                    [ArgStr (exception_what frame)] (smoothing ds);
                face_debug_counter := face_debug_counter ds;
                last_face_count := last_face_count ds |})
        | Some rects =>
            let count := Z.min (wrap32 (Z.of_nat (length rects))) max_faces in
            let ds1 := face_debug rects max_faces ds in
            let out := detect_loop (Z.to_nat count) 0 frame rects fs (smoothing ds1) in
            (count, Some out.1,
             {| smoothing := out.2;
                face_debug_counter := face_debug_counter ds1;
                last_face_count := last_face_count ds1 |})
        end
  end.

(** The frames of a run of the detection loop, each handed to
    [detect_faces] with the same array: the array and the static locals
    after the last frame. *)
Fixpoint detect_frames (frames : list frame_t) (faces : list face_detection_t)
    (max_faces : Z) (ds : detect_statics) : list face_detection_t * detect_statics :=
  match frames with
  | [] => (faces, ds)
  | frame :: frames' =>
      let out := detect_faces false frame (Some faces) max_faces ds in
      detect_frames frames'
        (match out.1.2 with Some fs => fs | None => faces end) max_faces out.2
  end.

(** ** Regions of interest *)

(** [roi_t] of image_processing.h. *)
Record roi_t : Type := mk_roi {
  roi_x : Z;
  roi_y : Z;
  roi_width : Z;
  roi_height : Z;
  roi_valid : bool
}.

(** [roi_t create_roi(int x, int y, int width, int height)] *)
Definition create_roi (x y width height : Z) : roi_t :=
  {| roi_x := x;
     roi_y := y;
     roi_width := width;
     roi_height := height;
     roi_valid := bool_decide (width > 0) && bool_decide (height > 0) |}.

(** [bool is_valid_roi(const roi_t* roi, int image_width, int
    image_height)]; the two sums are [int] additions. *)
Definition is_valid_roi (roi : option roi_t) (image_width image_height : Z) : bool :=
  match roi with
  | None => false
  | Some roi =>
      if negb (roi_valid roi) then false
      else bool_decide (roi_x roi >= 0) && bool_decide (roi_y roi >= 0)
           && bool_decide (wrap32 (roi_x roi + roi_width roi) <= image_width)
           && bool_decide (wrap32 (roi_y roi + roi_height roi) <= image_height)
           && bool_decide (roi_width roi > 0) && bool_decide (roi_height roi > 0)
  end.

(** "Calculate padded rectangle" of [crop_face_region], for an image of
    [cols] by [rows] pixels: the [cv::Rect] that is then cut out of the
    image. *)
Definition crop_face_rect (cols rows : Z) (face : face_detection_t) (padding : Z)
    : rect_t :=
  let cx := Z.max 0 (wrap32 (x face - padding)) in
  let cy := Z.max 0 (wrap32 (y face - padding)) in
  let cwidth := Z.min (wrap32 (cols - cx))
                  (wrap32 (width face + wrap32 (2 * padding))) in
  let cheight := Z.min (wrap32 (rows - cy))
                   (wrap32 (height face + wrap32 (2 * padding))) in
  {| rect_x := cx; rect_y := cy; rect_width := cwidth; rect_height := cheight |}.

(** ** Strings and keys *)

(** [const char* mask_status_to_string(mask_status_t status)] *)
Definition mask_status_to_string (status : mask_status_t) : string :=
  match status with
  | MASK_STATUS_WITH_MASK => "With Mask"
  | MASK_STATUS_WITHOUT_MASK => "Without Mask"
  | MASK_STATUS_INCORRECT_MASK => "Incorrect Mask"
  | _ => "Unknown"
  end.

(** [fmd_error_t] of face_mask_detector.h. *)
Inductive fmd_error_t : Type :=
  | FMD_SUCCESS
  | FMD_ERROR_INVALID_ARGS
  | FMD_ERROR_FILE_NOT_FOUND
  | FMD_ERROR_MEMORY_ALLOCATION
  | FMD_ERROR_OPENCV_INIT
  | FMD_ERROR_MODEL_LOAD
  | FMD_ERROR_CAMERA_INIT
  | FMD_ERROR_PROCESSING.

(** [app_config_t] of face_mask_detector.h. *)
Record app_config_t : Type := mk_config {
  model_path : string;
  config_path : string;
  cascade_path : string;
  input_path : string;
  output_path : string;
  camera_index : Z;
  confidence_threshold : float;
  nms_threshold : float;
  input_width : Z;
  input_height : Z;
  use_gpu : bool;
  save_output : bool;
  show_preview : bool;
  verbose : bool;
  real_time : bool
}.

(** [app_state_t] of face_mask_detector.h, without its OpenCV and pthread
    members ([face_cascade], [mask_net], [cap], [writer], [frame_mutex],
    [frame_cond], [current_frame]), which are no data of this
    development. *)
Record app_state_t : Type := mk_state {
  config : app_config_t;
  running : bool;
  detections : list face_detection_t;
  detection_count : Z;
  frame_count : Z;
  fps : float
}.

Definition set_running (v : bool) (st : app_state_t) : app_state_t :=
  {| config := config st;
     running := v;
     detections := detections st;
     detection_count := detection_count st;
     frame_count := frame_count st;
     fps := fps st |}.

Definition set_config (c : app_config_t) (st : app_state_t) : app_state_t :=
  {| config := c;
     running := running st;
     detections := detections st;
     detection_count := detection_count st;
     frame_count := frame_count st;
     fps := fps st |}.

Definition set_save_output (v : bool) (c : app_config_t) : app_config_t :=
  {| model_path := model_path c; config_path := config_path c;
     cascade_path := cascade_path c; input_path := input_path c;
     output_path := output_path c; camera_index := camera_index c;
     confidence_threshold := confidence_threshold c;
     nms_threshold := nms_threshold c;
     input_width := input_width c; input_height := input_height c;
     use_gpu := use_gpu c;
     save_output := v;
     show_preview := show_preview c;
     verbose := verbose c;
     real_time := real_time c |}.

Definition set_verbose (v : bool) (c : app_config_t) : app_config_t :=
  {| model_path := model_path c; config_path := config_path c;
     cascade_path := cascade_path c; input_path := input_path c;
     output_path := output_path c; camera_index := camera_index c;
     confidence_threshold := confidence_threshold c;
     nms_threshold := nms_threshold c;
     input_width := input_width c; input_height := input_height c;
     use_gpu := use_gpu c;
     save_output := save_output c;
     show_preview := show_preview c;
     verbose := v;
     real_time := real_time c |}.

(** The character constants of the [switch] in [handle_key_input]. *)
Definition key_q : Z := 113.
Definition key_ESC : Z := 27.
Definition key_s : Z := 115.
Definition key_S : Z := 83.
Definition key_v : Z := 118.
Definition key_V : Z := 86.
Definition key_p : Z := 112.
Definition key_P : Z := 80.
Definition key_r : Z := 114.
Definition key_R : Z := 82.

(** [int handle_key_input(app_state_t* state, int key)]: the code
    returned, the state behind the pointer and the log after the call,
    the log being the list of the calls of [log_info] so far. *)
Definition handle_key_input (state : option app_state_t) (key : Z)
    (log : list log_call) : fmd_error_t * option app_state_t * list log_call :=
  match state with
  | None => (FMD_ERROR_INVALID_ARGS, None, log)
  | Some st =>
      if decide (key = key_q \/ key = key_ESC) then
        (FMD_SUCCESS, Some (set_running false st), log)
      else if decide (key = key_s \/ key = key_S) then
        let c := set_save_output (negb (save_output (config st))) (config st) in
        (FMD_SUCCESS, Some (set_config c st),
         log ++ [mk_log "Output saving %s"
                   [ArgStr (if save_output c then "enabled" else "disabled")]])
      else if decide (key = key_v \/ key = key_V) then
        let c := set_verbose (negb (verbose (config st))) (config st) in
        (FMD_SUCCESS, Some (set_config c st),
         log ++ [mk_log "Verbose mode %s"
                   [ArgStr (if verbose c then "enabled" else "disabled")]])
      else if decide (key = key_p \/ key = key_P) then
        (FMD_SUCCESS, Some st, log ++ [mk_log "Pause/unpause requested" []])
      else if decide (key = key_r \/ key = key_R) then
        (FMD_SUCCESS, Some st,
         log ++ [mk_log "Reset detection parameters requested" []])
      else (FMD_SUCCESS, Some st, log)
  end.

(** ** The logging system of utils.c *)

Module Logging.

(** [log_level_t] of config.h. *)
Inductive log_level_t : Type :=
  | LOG_LEVEL_DEBUG
  | LOG_LEVEL_INFO
  | LOG_LEVEL_WARNING
  | LOG_LEVEL_ERROR
  | LOG_LEVEL_FATAL
  | LOG_LEVEL_NONE.

Definition level_to_int (l : log_level_t) : Z :=
  match l with
  | LOG_LEVEL_DEBUG => 0
  | LOG_LEVEL_INFO => 1
  | LOG_LEVEL_WARNING => 2
  | LOG_LEVEL_ERROR => 3
  | LOG_LEVEL_FATAL => 4
  | LOG_LEVEL_NONE => 5
  end.

(** [logging_config_t] of config.h. *)
Record logging_config_t : Type := mk_logging_config {
  level : log_level_t;
  log_file : string;
  console_output : bool;
  file_output : bool;
  timestamp_enabled : bool;
  thread_id_enabled : bool;
  max_file_size : Z;
  max_backup_files : Z
}.

(** The "Global logging state": [g_log_file] is [None] for [NULL] and
    otherwise the path the stream was opened on. *)
Record globals : Type := mk_globals {
  g_log_level : log_level_t;
  g_log_file : option string;
  g_console_logging : bool
}.

(** The initialisers of the globals. *)
Definition initial_globals : globals :=
  {| g_log_level := LOG_LEVEL_INFO; g_log_file := None; g_console_logging := true |}.

(** What [fprintf] is handed: the three strings of
    ["[%s] %s: %s\n"], or the one of the warning of
    [init_logging_system]. *)
Inductive line : Type :=
  | Entry (timestamp level_str message : string)
  | Warning_could_not_open (path : string).

(** What has been written to [stdout], to [stderr], and to log files
    (with the path of the file). *)
Record streams : Type := mk_streams {
  to_stdout : list line;
  to_stderr : list line;
  to_file : list (string * line)
}.

Definition no_output : streams :=
  {| to_stdout := []; to_stderr := []; to_file := [] |}.

(** [static void log_message(log_level_t level, const char* format,
    va_list args)].  [timestamp] is what [strftime] produces for the
    current time and [text] the full expansion of the format, of which
    [vsnprintf] keeps the first 1023 characters in [message[1024]]. *)
Definition log_message (lvl : log_level_t) (timestamp text : string)
    (g : globals) (o : streams) : streams :=
  if decide (level_to_int lvl < level_to_int (g_log_level g)) then o
  else
    let level_str :=
      match lvl with
      | LOG_LEVEL_DEBUG => "DEBUG"%string
      | LOG_LEVEL_INFO => "INFO"%string
      | LOG_LEVEL_WARNING => "WARN"%string
      | LOG_LEVEL_ERROR => "ERROR"%string
      | LOG_LEVEL_FATAL => "FATAL"%string
      | _ => "UNKNOWN"%string
      end in
    let message := String.substring 0 1023 text in
    let l := Entry timestamp level_str message in
    let o1 :=
      if g_console_logging g then
        if decide (level_to_int lvl >= level_to_int LOG_LEVEL_ERROR)
        then {| to_stdout := to_stdout o; to_stderr := to_stderr o ++ [l];
                to_file := to_file o |}
        else {| to_stdout := to_stdout o ++ [l]; to_stderr := to_stderr o;
                to_file := to_file o |}
      else o in
    match g_log_file g with
    | Some path =>
        {| to_stdout := to_stdout o1; to_stderr := to_stderr o1;
           to_file := to_file o1 ++ [(path, l)] |}
    | None => o1
    end.

Definition log_debug := log_message LOG_LEVEL_DEBUG.
Definition log_info := log_message LOG_LEVEL_INFO.
Definition log_warning := log_message LOG_LEVEL_WARNING.
Definition log_error := log_message LOG_LEVEL_ERROR.

(** [int init_logging_system(const logging_config_t* config)];
    [fopen_ok] says whether [fopen(config->log_file, "a")] succeeds. *)
Definition init_logging_system (cfg : option logging_config_t) (fopen_ok : bool)
    (g : globals) (o : streams) : fmd_error_t * globals * streams :=
  match cfg with
  | None =>
      (FMD_SUCCESS,
       {| g_log_level := LOG_LEVEL_INFO; g_log_file := g_log_file g;
          g_console_logging := true |}, o)
  | Some c =>
      let g1 := {| g_log_level := level c; g_log_file := g_log_file g;
                   g_console_logging := console_output c |} in
      if file_output c && negb (String.length (log_file c) =? 0)%nat then
        if fopen_ok then
          (FMD_SUCCESS,
           {| g_log_level := level c; g_log_file := Some (log_file c);
              g_console_logging := console_output c |}, o)
        else
          (FMD_SUCCESS,
           {| g_log_level := level c; g_log_file := None;
              g_console_logging := console_output c |},
           {| to_stdout := to_stdout o;
              to_stderr := to_stderr o ++ [Warning_could_not_open (log_file c)];
              to_file := to_file o |})
      else (FMD_SUCCESS, g1, o)
  end.

(** [void cleanup_logging_system(void)] *)
Definition cleanup_logging_system (g : globals) : globals :=
  match g_log_file g with
  | Some _ => {| g_log_level := g_log_level g; g_log_file := None;
                 g_console_logging := g_console_logging g |}
  | None => g
  end.

(** A sequence of calls of [log_message], each with its level, the
    timestamp of its moment and the expansion of its format. *)
Definition log_all (calls : list (log_level_t * string * string)) (g : globals)
    (o : streams) : streams :=
  fold_left (fun o c => log_message c.1.1 c.1.2 c.2 g o) calls o.

(** The message of an entry fits the buffer [message[1024]]. *)
Definition fits_buffer (l : line) : Prop :=
  match l with
  | Entry _ _ message => (String.length message <= 1023)%nat
  | Warning_could_not_open _ => True
  end.

Definition streams_fit_buffer (o : streams) : Prop :=
  Forall fits_buffer (to_stdout o)
  /\ Forall fits_buffer (to_stderr o)
  /\ Forall (fun pl => fits_buffer pl.2) (to_file o).

End Logging.

(** ** The simple classifier *)

(** What [classify_mask_simple_reliable] measures on the mouth area
    through OpenCV, as [double]s: the mean hue, saturation and value, the
    standard deviation and the mean of the grey levels, and the share of
    edge pixels. *)
Record measurements : Type := mk_measurements {
  hue : float;
  saturation : float;
  value : float;
  texture_std : float;
  brightness : float;
  edge_ratio : float
}.

(** A call of [log_info] with [double] arguments. *)
Inductive fmt_arg : Type :=
  | FmtStr (s : string)
  | FmtInt (n : Z)
  | FmtDouble (d : float).

Record fmt_call : Type := mk_fmt { fmt_format : string; fmt_args : list fmt_arg }.

(** The [static] counter of the classifier, with the lines it has logged
    (oldest first). *)
Record classifier_statics : Type := mk_classifier_statics {
  debug_counter : Z;
  classifier_lines : list fmt_call
}.

(** [((hue >= 5 && hue <= 25) || (hue >= 165 && hue <= 175))] *)
Definition is_skin_hue (m : measurements) : bool :=
  ((5 <=? hue m) && (hue m <=? 25) || (165 <=? hue m) && (hue m <=? 175))%float.

(** "Score different indicators": [mask_indicators] and
    [skin_indicators] after the five tests.  The sums stay below 10, so
    that [int] addition is addition. *)
Definition indicators (m : measurements) : Z * Z :=
  let mask_indicators := 0 in
  let skin_indicators := 0 in
  (* 1. colour saturation *)
  let '(mask_indicators, skin_indicators) :=
    if (saturation m <? 70)%float then (mask_indicators + 4, skin_indicators)
    else if (90 <? saturation m)%float then (mask_indicators, skin_indicators + 2)
    else (mask_indicators, skin_indicators) in
  (* 2. skin colour *)
  let skin_indicators :=
    if is_skin_hue m && (60 <? saturation m)%float && (80 <? value m)%float
       && (value m <? 180)%float
    then skin_indicators + 3 else skin_indicators in
  (* 3. texture uniformity *)
  let '(mask_indicators, skin_indicators) :=
    if (texture_std m <? 25)%float then (mask_indicators + 3, skin_indicators)
    else if (35 <? texture_std m)%float then (mask_indicators, skin_indicators + 1)
    else (mask_indicators, skin_indicators) in
  (* 4. overall brightness *)
  let mask_indicators :=
    if (150 <? brightness m)%float || (brightness m <? 100)%float
    then mask_indicators + 1 else mask_indicators in
  (* 5. edges: 0.1 < edge_ratio < 0.3 *)
  let mask_indicators :=
    if (0x1.999999999999ap-4 <? edge_ratio m)%float
       && (edge_ratio m <? 0x1.3333333333333p-2)%float
    then mask_indicators + 1 else mask_indicators in
  (mask_indicators, skin_indicators).

(** The lines of the "Debug output" block. *)
Definition simple_debug_lines (m : measurements) : list fmt_call :=
  let mask_indicators := (indicators m).1 in
  let skin_indicators := (indicators m).2 in
  [mk_fmt "=== SIMPLE RELIABLE DETECTION ===" [];
   mk_fmt "H=%.1f S=%.1f V=%.1f B=%.1f T=%.1f"
     [FmtDouble (hue m); FmtDouble (saturation m); FmtDouble (value m);
      FmtDouble (brightness m); FmtDouble (texture_std m)];
   mk_fmt "MaskIndicators=%d SkinIndicators=%d"
     [FmtInt mask_indicators; FmtInt skin_indicators];
   mk_fmt "SkinHue=%s EdgeRatio=%.3f"
     [FmtStr (if is_skin_hue m then "YES" else "NO"); FmtDouble (edge_ratio m)];
   (if decide (mask_indicators >= 4) then
      mk_fmt "DECISION: MASK (strong indicators >= 4)" []
    else if decide (skin_indicators >= 4) then
      mk_fmt "DECISION: NO-MASK (strong skin indicators >= 4)" []
    else if decide (mask_indicators > skin_indicators) then
      mk_fmt "DECISION: MASK (advantage %d > %d)"
        [FmtInt mask_indicators; FmtInt skin_indicators]
    else
      mk_fmt "DECISION: NO-MASK (advantage %d >= %d)"
        [FmtInt skin_indicators; FmtInt mask_indicators]);
   mk_fmt "================================" []].

(** [classify_mask_simple_reliable] from "Score different indicators" to
    its [return]: the status for the measurements taken, and the static
    counter and the log afterwards ([++debug_counter % 15 == 0]). *)
Definition simple_reliable_decision (m : measurements) (cs : classifier_statics)
    : mask_status_t * classifier_statics :=
  let mask_indicators := (indicators m).1 in
  let skin_indicators := (indicators m).2 in
  let counter := wrap32 (debug_counter cs + 1) in
  let cs' :=
    {| debug_counter := counter;
       classifier_lines :=
         if decide (Z.rem counter 15 = 0)
         then classifier_lines cs ++ simple_debug_lines m
         else classifier_lines cs |} in
  if decide (mask_indicators >= 3) then (MASK_STATUS_WITH_MASK, cs')
  else if decide (skin_indicators >= 5) then (MASK_STATUS_WITHOUT_MASK, cs')
  else if decide (mask_indicators >= skin_indicators) then (MASK_STATUS_WITH_MASK, cs')
  else (MASK_STATUS_WITHOUT_MASK, cs').

(** ** Drawing *)

(** A [cv::Scalar] colour, blue, green, red. *)
Definition color : Type := (Z * Z * Z)%type.

(** The texts [draw_detections] prints: ["%s (%.2f)"] with the label and
    the mask confidence, and ["Faces: %d"]. *)
Inductive draw_text : Type :=
  | Label_text (label : string) (mask_confidence : float)
  | Info_text (count : Z).

(** The calls of [cv::rectangle] and [cv::putText] on the frame, with the
    corner points, the colour and the thickness, and for a text its
    origin and font scale. *)
Inductive draw_command : Type :=
  | Rectangle (x1 y1 x2 y2 : Z) (c : color) (thickness : Z)
  | Put_text (text : draw_text) (tx ty : Z) (font_scale : float) (c : color)
      (thickness : Z).

(** [cv::Size] and the baseline that [cv::getTextSize] returns. *)
Record text_extent : Type := mk_extent {
  text_width : Z;
  text_height : Z;
  text_baseline : Z
}.

(** "Choose color based on mask status" *)
Definition status_color_label (m : mask_status_t) : color * string :=
  match m with
  | MASK_STATUS_WITH_MASK => ((0, 255, 0), "Mask"%string)
  | MASK_STATUS_WITHOUT_MASK => ((0, 0, 255), "No Mask"%string)
  | MASK_STATUS_INCORRECT_MASK => ((0, 165, 255), "Incorrect"%string)
  | _ => ((255, 255, 0), "Unknown"%string)
  end.

(** [cv::Point label_pos(face->x, face->y - 10); if (label_pos.y <
    text_size.height) label_pos.y = face->y + face->height +
    text_size.height + 5;] *)
Definition label_pos (face : face_detection_t) (size : text_extent) : Z * Z :=
  let ly := wrap32 (y face - 10) in
  if decide (ly < text_height size)
  then (x face, wrap32 (wrap32 (wrap32 (y face + height face) + text_height size) + 5))
  else (x face, ly).

(** The body of the loop of [draw_detections] for one face;
    [get_text_size] stands for [cv::getTextSize] with the font, scale and
    thickness of the call. *)
Definition draw_face (get_text_size : draw_text -> text_extent)
    (face : face_detection_t) : list draw_command :=
  let cl := status_color_label (mask_status face) in
  let text := Label_text cl.2 (mask_confidence face) in
  let size := get_text_size text in
  let pos := label_pos face size in
  [Rectangle (x face) (y face) (wrap32 (x face + width face))
     (wrap32 (y face + height face)) cl.1 2;
   Rectangle pos.1 (wrap32 (wrap32 (pos.2 - text_height size) - text_baseline size))
     (wrap32 (pos.1 + text_width size)) (wrap32 (pos.2 + text_baseline size))
     cl.1 (-1);
   Put_text text pos.1 pos.2 0x1.3333333333333p-1%float (255, 255, 255) 2].

(** [void draw_detections(cv::Mat& frame, const face_detection_t* faces,
    int count)]: the drawing calls made on the frame, in order.  The
    array behind [faces] holds at least [count] records. *)
Definition draw_detections (get_text_size : draw_text -> text_extent)
    (frame_is_empty : bool) (faces : option (list face_detection_t)) (count : Z)
    : list draw_command :=
  match faces with
  | None => []
  | Some fs =>
      if frame_is_empty || bool_decide (count <= 0) then []
      else
        concat (map (draw_face get_text_size) (take (Z.to_nat count) fs))
        ++ [Put_text (Info_text count) 10 30 0x1.999999999999ap-1%float
              (255, 255, 255) 2]
  end.

(** The fields of a face record that belong to the smoothing. *)
Definition smoothing_fields (f : face_detection_t)
    : list Z * Z * Z * mask_status_t * Z :=
  (mask_history f, history_index f, history_count f, stable_status f, stable_count f).

(** ** The function under the C rule for signed overflow *)

(** The values of an [int]. *)
Definition in_int (z : Z) : Prop := -2147483648 <= z <= 2147483647.

(** An [int] operation whose exact result is [z]: the result when it is
    an [int], undefined ([None]) when it is not. *)
Definition int_result (z : Z) : option Z :=
  if decide (in_int z) then Some z else None.

(** "Count consecutive identical results", [same_result_count++] being
    undefined on overflow. *)
Definition count_consecutive_strict (current_status : mask_status_t) (s : statics)
    : option statics :=
  if decide (current_status = previous_result s)
  then match int_result (same_result_count s + 1) with
       | Some c => Some (set_count c s)
       | None => None
       end
  else Some (set_previous current_status (set_count 1 s)).

(** The debug output, [++debug_frame_count] being undefined on
    overflow. *)
Definition debug_output_strict (current_status : mask_status_t) (s : statics)
    : option statics :=
  match int_result (debug_frame_count s + 1) with
  | None => None
  | Some d =>
      let s1 := set_debug d s in
      if decide (Z.rem (debug_frame_count s1) 30 = 0) then
        let s2 := log_info "Detection status: %s (count: %d)"
                    [ArgStr (status_label current_status);
                     ArgInt (same_result_count s1)] s1 in
        if decide (current_locked_status s2 <> MASK_STATUS_UNKNOWN) then
          Some (log_info "Locked to: %s, frames left: %d"
                  [ArgStr (locked_label (current_locked_status s2));
                   ArgInt (lock_frames_remaining s2)] s2)
        else Some s2
      else Some s1
  end.

Definition fallback_strict (face : face_detection_t) (current_status : mask_status_t)
    (s : statics) : option (mask_status_t * option face_detection_t * statics) :=
  match debug_output_strict current_status s with
  | None => None
  | Some s' =>
      if decide (stable_status face <> MASK_STATUS_UNKNOWN)
      then Some (stable_status face, Some face, s')
      else Some (current_status, Some face, s')
  end.

(** The locking logic, [lock_frames_remaining--] being undefined on
    overflow. *)
Definition locking_logic_strict (face : face_detection_t)
    (current_status : mask_status_t) (s : statics)
    : option (mask_status_t * option face_detection_t * statics) :=
  if decide (current_locked_status s <> MASK_STATUS_UNKNOWN) then
    match int_result (lock_frames_remaining s - 1) with
    | None => None
    | Some remaining =>
        let s1 := set_remaining remaining s in
        if decide (lock_frames_remaining s1 > 0) then
          if decide (current_locked_status s1 = MASK_STATUS_WITH_MASK
                     /\ current_status = MASK_STATUS_WITHOUT_MASK
                     /\ same_result_count s1 >= 8) then
            let s2 := set_remaining 60 (set_locked current_status s1) in
            Some (current_locked_status s2, Some face, s2)
          else Some (current_locked_status s1, Some face, s1)
        else
          if decide (same_result_count s1 >= 12
                     /\ current_status <> current_locked_status s1) then
            let s2 := set_remaining (lock_duration current_status)
                        (set_locked current_status s1) in
            Some (current_locked_status s2, Some face, s2)
          else if decide (same_result_count s1 < 12) then
            let s2 := set_remaining 20 s1 in
            Some (current_locked_status s2, Some face, s2)
          else fallback_strict face current_status s1
    end
  else
    if decide (same_result_count s >= 5) then
      let s2 := set_remaining (lock_duration current_status)
                  (set_locked current_status s) in
      Some (current_locked_status s2, Some face, s2)
    else fallback_strict face current_status s.

(** [apply_temporal_smoothing] with the three [static] counters as C has
    them: [None] is the undefined behaviour of a [++] or [--] that
    leaves [int]. *)
Definition apply_temporal_smoothing_strict (face : option face_detection_t)
    (current_status : mask_status_t) (s : statics)
    : option (mask_status_t * option face_detection_t * statics) :=
  match face with
  | None => Some (current_status, None, s)
  | Some f =>
      if decide (history_count f = 0)
      then Some (current_status, Some (init_history current_status f), s)
      else match count_consecutive_strict current_status s with
           | None => None
           | Some s1 => locking_logic_strict f current_status s1
           end
  end.

(** A sequence of calls under the C rule: the static locals after the
    last call, or [None] once a call is undefined. *)
Fixpoint run_calls_strict (calls : list (option face_detection_t * mask_status_t))
    (s : statics) : option statics :=
  match calls with
  | [] => Some s
  | c :: calls' =>
      match apply_temporal_smoothing_strict c.1 c.2 s with
      | None => None
      | Some out => run_calls_strict calls' (statics_after out)
      end
  end.

(** A face that shows a mask from program start: the call that seeds its
    record, then [INT_MAX] calls with the same raw status. *)
Definition seeded_with_mask : face_detection_t :=
  init_history MASK_STATUS_WITH_MASK zero_face.

Definition int_max_mask_calls : list (option face_detection_t * mask_status_t) :=
  (Some zero_face, MASK_STATUS_WITH_MASK)
  :: (Some seeded_with_mask, MASK_STATUS_WITH_MASK)
  :: replicate (Z.to_nat 2147483646) (Some seeded_with_mask, MASK_STATUS_WITH_MASK).

(** ** Basic facts *)

Lemma later_call (f : face_detection_t) (r : mask_status_t) (s : statics) :
  history_count f <> 0 ->
  apply_temporal_smoothing (Some f) r s
  = locking_logic f r (count_consecutive r s).
Proof.
  intros Hseeded. unfold apply_temporal_smoothing.
  destruct (decide (history_count f = 0)) as [Hz | _]; [contradiction | reflexivity].
Qed.

Lemma first_call (f : face_detection_t) (r : mask_status_t) (s : statics) :
  history_count f = 0 ->
  apply_temporal_smoothing (Some f) r s = (r, Some (init_history r f), s).
Proof.
  intros Hfresh. unfold apply_temporal_smoothing.
  destruct (decide (history_count f = 0)) as [_ | Hnz]; [reflexivity | contradiction].
Qed.

(** Counting the streak leaves the lock and its countdown alone. *)
Lemma count_consecutive_lock (r : mask_status_t) (s : statics) :
  current_locked_status (count_consecutive r s) = current_locked_status s
  /\ lock_frames_remaining (count_consecutive r s) = lock_frames_remaining s.
Proof. unfold count_consecutive. case_decide; split; reflexivity. Qed.

(** After counting, the previous result is the current status. *)
Lemma count_consecutive_previous (r : mask_status_t) (s : statics) :
  previous_result (count_consecutive r s) = r.
Proof. unfold count_consecutive. case_decide; simpl; congruence. Qed.

(** The debug output touches neither the lock nor the streak. *)
Lemma debug_output_lock (r : mask_status_t) (s : statics) :
  current_locked_status (debug_output r s) = current_locked_status s
  /\ lock_frames_remaining (debug_output r s) = lock_frames_remaining s
  /\ same_result_count (debug_output r s) = same_result_count s
  /\ previous_result (debug_output r s) = previous_result s.
Proof. unfold debug_output. repeat case_decide; simpl; auto. Qed.

(** The loop of the first call overwrites the ten slots of the buffer. *)
Lemma fill_history_all (v : Z) (h : list Z) :
  length h = 10%nat -> fill_history 10 0 v h = replicate 10 v.
Proof.
  intros Hlen.
  do 11 (destruct h as [| ? h]; [discriminate Hlen || reflexivity |]).
  discriminate Hlen.
Qed.

(** Case analysis of one call after the first, with the lock and streak
    kept as the hypotheses state them. *)
Ltac locking_cases :=
  unfold locking_logic, fallback, returned, face_after, statics_after;
  repeat case_decide; simpl in *;
  repeat match goal with
  | H : _ /\ _ |- _ => destruct H
  end.

Ltac lock_done :=
  unfold lock_duration in *; repeat case_decide;
  first
    [ solve [repeat split; (congruence || lia)]
    | match goal with
      | H : ~ _ |- _ =>
          solve [exfalso; apply H; repeat split; (congruence || lia)]
      end ].

(** ** The null pointer *)

(** C10: for a null face pointer and any raw status, the call returns the
    raw status unchanged, and leaves the static locals (lock, countdown,
    streak, previous result, debug counter, log) exactly as they were;
    there is no face record to write. *)
Theorem null_face_returns_input :
  forall (current_status : mask_status_t) (s : statics),
    apply_temporal_smoothing None current_status s = (current_status, None, s).
Proof. intros current_status s. reflexivity. Qed.

(** ** No active lock *)

(** C1: in a call after the first one for the face, with no active lock
    ([current_locked_status] is [MASK_STATUS_UNKNOWN]): if the streak
    after counting is at least 5, the call locks the raw status, sets the
    countdown to 90 for [MASK_STATUS_WITH_MASK] and to 60 otherwise, and
    returns the raw status; if the streak is below 5, no lock is
    established (the lock stays at the sentinel, the countdown is not
    written). *)
Theorem unlocked_establishes_lock :
  forall (f : face_detection_t) (r : mask_status_t) (s : statics),
    history_count f <> 0 ->
    current_locked_status s = MASK_STATUS_UNKNOWN ->
    let out := apply_temporal_smoothing (Some f) r s in
    (streak_after r s >= 5 ->
       returned out = r
       /\ current_locked_status (statics_after out) = r
       /\ lock_frames_remaining (statics_after out)
          = (if decide (r = MASK_STATUS_WITH_MASK) then 90 else 60))
    /\ (streak_after r s < 5 ->
       current_locked_status (statics_after out) = MASK_STATUS_UNKNOWN
       /\ lock_frames_remaining (statics_after out) = lock_frames_remaining s).
Proof.
  intros f r s Hseeded Hnolock out. subst out.
  rewrite (later_call f r s Hseeded).
  destruct (count_consecutive_lock r s) as [Hlock Hrem].
  unfold streak_after.
  set (s1 := count_consecutive r s) in *.
  destruct (debug_output_lock r s1) as (Hdl & Hdr & _).
  split; intros Hstreak.
  - locking_cases; lock_done.
  - locking_cases; lock_done.
Qed.

Lemma unlocked_establishes_lock_witness :
  let f := init_history MASK_STATUS_WITH_MASK zero_face in
  let s := {| current_locked_status := MASK_STATUS_UNKNOWN;
              lock_frames_remaining := 0;
              same_result_count := 4;
              previous_result := MASK_STATUS_WITH_MASK;
              debug_frame_count := 4;
              log_output := [] |} in
  history_count f <> 0
  /\ current_locked_status s = MASK_STATUS_UNKNOWN
  /\ streak_after MASK_STATUS_WITH_MASK s >= 5
  /\ returned (apply_temporal_smoothing (Some f) MASK_STATUS_WITH_MASK s)
     = MASK_STATUS_WITH_MASK
  /\ lock_frames_remaining
       (statics_after (apply_temporal_smoothing (Some f) MASK_STATUS_WITH_MASK s))
     = 90.
Proof.
  intros f s.
  assert (Hseeded : history_count f <> 0) by (vm_compute; discriminate).
  assert (Hnolock : current_locked_status s = MASK_STATUS_UNKNOWN) by reflexivity.
  assert (Hstreak : streak_after MASK_STATUS_WITH_MASK s >= 5)
    by (vm_compute; discriminate).
  destruct (unlocked_establishes_lock f MASK_STATUS_WITH_MASK s Hseeded Hnolock)
    as [Hlock _].
  destruct (Hlock Hstreak) as (Hret & _ & Hrem).
  exact (conj Hseeded (conj Hnolock (conj Hstreak (conj Hret Hrem)))).
Defined.

(** ** Active lock, countdown still running *)

(** C2: in a call after the first one for the face, with the lock on
    [MASK_STATUS_WITH_MASK] and the countdown still positive after its
    decrement: a raw [MASK_STATUS_WITHOUT_MASK] whose streak after
    counting is at least 8 switches the lock to [MASK_STATUS_WITHOUT_MASK]
    with a countdown of 60 and is returned; with a streak below 8 the
    call returns [MASK_STATUS_WITH_MASK] and keeps that lock, whatever
    the raw status is. *)
Theorem with_mask_lock_fast_exit :
  forall (f : face_detection_t) (r : mask_status_t) (s : statics),
    history_count f <> 0 ->
    current_locked_status s = MASK_STATUS_WITH_MASK ->
    remaining_after_decrement s > 0 ->
    let out := apply_temporal_smoothing (Some f) r s in
    (r = MASK_STATUS_WITHOUT_MASK -> streak_after r s >= 8 ->
       returned out = MASK_STATUS_WITHOUT_MASK
       /\ current_locked_status (statics_after out) = MASK_STATUS_WITHOUT_MASK
       /\ lock_frames_remaining (statics_after out) = 60)
    /\ (streak_after r s < 8 ->
       returned out = MASK_STATUS_WITH_MASK
       /\ current_locked_status (statics_after out) = MASK_STATUS_WITH_MASK
       /\ lock_frames_remaining (statics_after out) = remaining_after_decrement s).
Proof.
  intros f r s Hseeded Hlocked Hpos out. subst out.
  rewrite (later_call f r s Hseeded).
  destruct (count_consecutive_lock r s) as [Hlock Hrem].
  unfold streak_after, remaining_after_decrement in *.
  set (s1 := count_consecutive r s) in *.
  rewrite <- Hrem in *.
  split.
  - intros Hraw Hstreak. locking_cases; lock_done.
  - intros Hstreak. locking_cases; lock_done.
Qed.

Lemma with_mask_lock_fast_exit_witness :
  let f := init_history MASK_STATUS_WITH_MASK zero_face in
  let s := {| current_locked_status := MASK_STATUS_WITH_MASK;
              lock_frames_remaining := 83;
              same_result_count := 7;
              previous_result := MASK_STATUS_WITHOUT_MASK;
              debug_frame_count := 0;
              log_output := [] |} in
  history_count f <> 0
  /\ current_locked_status s = MASK_STATUS_WITH_MASK
  /\ remaining_after_decrement s > 0
  /\ streak_after MASK_STATUS_WITHOUT_MASK s >= 8
  /\ returned (apply_temporal_smoothing (Some f) MASK_STATUS_WITHOUT_MASK s)
     = MASK_STATUS_WITHOUT_MASK
  /\ lock_frames_remaining
       (statics_after (apply_temporal_smoothing (Some f) MASK_STATUS_WITHOUT_MASK s))
     = 60.
Proof.
  intros f s.
  assert (Hseeded : history_count f <> 0) by (vm_compute; discriminate).
  assert (Hlocked : current_locked_status s = MASK_STATUS_WITH_MASK) by reflexivity.
  assert (Hpos : remaining_after_decrement s > 0) by (vm_compute; reflexivity).
  assert (Hstreak : streak_after MASK_STATUS_WITHOUT_MASK s >= 8)
    by (vm_compute; discriminate).
  destruct (with_mask_lock_fast_exit f MASK_STATUS_WITHOUT_MASK s
              Hseeded Hlocked Hpos) as [Hfast _].
  destruct (Hfast eq_refl Hstreak) as (Hret & _ & Hrem).
  exact (conj Hseeded (conj Hlocked (conj Hpos (conj Hstreak (conj Hret Hrem))))).
Defined.

(** ** Active lock, countdown expired *)

(** C3: in a call after the first one for the face, with an active lock
    whose countdown is at most 0 after its decrement: a streak of at
    least 12 of a raw status other than the locked one switches the lock
    to the raw status, with a countdown of 90 for [MASK_STATUS_WITH_MASK]
    and 60 otherwise, and returns it; a streak below 12 keeps the locked
    status, sets the countdown to 20 and returns the locked status. *)
Theorem expired_lock_switch_or_extend :
  forall (f : face_detection_t) (r : mask_status_t) (s : statics),
    history_count f <> 0 ->
    current_locked_status s <> MASK_STATUS_UNKNOWN ->
    remaining_after_decrement s <= 0 ->
    let out := apply_temporal_smoothing (Some f) r s in
    (streak_after r s >= 12 -> r <> current_locked_status s ->
       returned out = r
       /\ current_locked_status (statics_after out) = r
       /\ lock_frames_remaining (statics_after out)
          = (if decide (r = MASK_STATUS_WITH_MASK) then 90 else 60))
    /\ (streak_after r s < 12 ->
       returned out = current_locked_status s
       /\ current_locked_status (statics_after out) = current_locked_status s
       /\ lock_frames_remaining (statics_after out) = 20).
Proof.
  intros f r s Hseeded Hlocked Hexp out. subst out.
  rewrite (later_call f r s Hseeded).
  destruct (count_consecutive_lock r s) as [Hlock Hrem].
  unfold streak_after, remaining_after_decrement in *.
  set (s1 := count_consecutive r s) in *.
  rewrite <- Hrem in *. rewrite <- Hlock in *.
  split.
  - intros Hstreak Hdiff. locking_cases; lock_done.
  - intros Hstreak. locking_cases; lock_done.
Qed.

Lemma expired_lock_switch_or_extend_witness :
  let f := init_history MASK_STATUS_WITH_MASK zero_face in
  let s := {| current_locked_status := MASK_STATUS_WITHOUT_MASK;
              lock_frames_remaining := 1;
              same_result_count := 11;
              previous_result := MASK_STATUS_WITH_MASK;
              debug_frame_count := 0;
              log_output := [] |} in
  history_count f <> 0
  /\ current_locked_status s <> MASK_STATUS_UNKNOWN
  /\ remaining_after_decrement s <= 0
  /\ streak_after MASK_STATUS_WITH_MASK s >= 12
  /\ MASK_STATUS_WITH_MASK <> current_locked_status s
  /\ returned (apply_temporal_smoothing (Some f) MASK_STATUS_WITH_MASK s)
     = MASK_STATUS_WITH_MASK
  /\ lock_frames_remaining
       (statics_after (apply_temporal_smoothing (Some f) MASK_STATUS_WITH_MASK s))
     = 90.
Proof.
  intros f s.
  assert (Hseeded : history_count f <> 0) by (vm_compute; discriminate).
  assert (Hlocked : current_locked_status s <> MASK_STATUS_UNKNOWN)
    by (simpl; discriminate).
  assert (Hexp : remaining_after_decrement s <= 0) by (vm_compute; discriminate).
  assert (Hstreak : streak_after MASK_STATUS_WITH_MASK s >= 12)
    by (vm_compute; discriminate).
  assert (Hdiff : MASK_STATUS_WITH_MASK <> current_locked_status s)
    by (simpl; discriminate).
  destruct (expired_lock_switch_or_extend f MASK_STATUS_WITH_MASK s
              Hseeded Hlocked Hexp) as [Hswitch _].
  destruct (Hswitch Hstreak Hdiff) as (Hret & _ & Hrem).
  exact (conj Hseeded (conj Hlocked (conj Hexp (conj Hstreak
           (conj Hdiff (conj Hret Hrem)))))).
Defined.

(** C6: in a call after the first one for the face, with an active lock
    whose countdown is at most 0 after its decrement, a streak of at
    least 12 and a raw status equal to the locked one: no branch of the
    locking logic returns; the lock keeps its value, the countdown keeps
    its decremented value, and the call returns the stable status of the
    face when that is not [MASK_STATUS_UNKNOWN], the raw status
    otherwise. *)
Theorem expired_lock_same_status_falls_through :
  forall (f : face_detection_t) (r : mask_status_t) (s : statics),
    history_count f <> 0 ->
    current_locked_status s <> MASK_STATUS_UNKNOWN ->
    remaining_after_decrement s <= 0 ->
    streak_after r s >= 12 ->
    r = current_locked_status s ->
    let out := apply_temporal_smoothing (Some f) r s in
    returned out
    = (if decide (stable_status f <> MASK_STATUS_UNKNOWN)
       then stable_status f else r)
    /\ current_locked_status (statics_after out) = current_locked_status s
    /\ lock_frames_remaining (statics_after out) = remaining_after_decrement s.
Proof.
  intros f r s Hseeded Hlocked Hexp Hstreak Hsame out. subst out.
  rewrite (later_call f r s Hseeded).
  destruct (count_consecutive_lock r s) as [Hlock Hrem].
  unfold streak_after, remaining_after_decrement in *.
  set (s1 := count_consecutive r s) in *.
  rewrite <- Hrem in *. rewrite <- Hlock in *.
  set (s2 := set_remaining (wrap32 (lock_frames_remaining s1 - 1)) s1).
  destruct (debug_output_lock r s2) as (Hdl & Hdr & _).
  locking_cases; fold s2; rewrite ?Hdl, ?Hdr; simpl; lock_done.
Qed.

Lemma expired_lock_same_status_falls_through_witness :
  let f := init_history MASK_STATUS_WITHOUT_MASK zero_face in
  let s := {| current_locked_status := MASK_STATUS_WITH_MASK;
              lock_frames_remaining := 1;
              same_result_count := 94;
              previous_result := MASK_STATUS_WITH_MASK;
              debug_frame_count := 0;
              log_output := [] |} in
  history_count f <> 0
  /\ current_locked_status s <> MASK_STATUS_UNKNOWN
  /\ remaining_after_decrement s <= 0
  /\ streak_after MASK_STATUS_WITH_MASK s >= 12
  /\ MASK_STATUS_WITH_MASK = current_locked_status s
  /\ returned (apply_temporal_smoothing (Some f) MASK_STATUS_WITH_MASK s)
     = MASK_STATUS_WITHOUT_MASK.
Proof.
  intros f s.
  assert (Hseeded : history_count f <> 0) by (vm_compute; discriminate).
  assert (Hlocked : current_locked_status s <> MASK_STATUS_UNKNOWN)
    by (simpl; discriminate).
  assert (Hexp : remaining_after_decrement s <= 0) by (vm_compute; discriminate).
  assert (Hstreak : streak_after MASK_STATUS_WITH_MASK s >= 12)
    by (vm_compute; discriminate).
  assert (Hsame : MASK_STATUS_WITH_MASK = current_locked_status s) by reflexivity.
  destruct (expired_lock_same_status_falls_through f MASK_STATUS_WITH_MASK s
              Hseeded Hlocked Hexp Hstreak Hsame) as (Hret & _ & _).
  exact (conj Hseeded (conj Hlocked (conj Hexp (conj Hstreak (conj Hsame Hret))))).
Defined.

(** ** The face record *)

(** X1: the first call for a face ([history_count] zero on entry) returns
    the raw status, fills the ten slots of the history buffer with it,
    sets the index to 0, the count to 1, the stable status to the raw
    status and the stable count to 1, and leaves the static locals alone:
    the streak is not counted and no lock is looked at. *)
Lemma first_call_seeds_face (f : face_detection_t) (r : mask_status_t) (s : statics) :
  history_count f = 0 ->
  length (mask_history f) = 10%nat ->
  let out := apply_temporal_smoothing (Some f) r s in
  returned out = r
  /\ statics_after out = s
  /\ exists f', face_after out = Some f'
       /\ mask_history f' = replicate 10 (status_to_int r)
       /\ history_index f' = 0 /\ history_count f' = 1
       /\ stable_status f' = r /\ stable_count f' = 1.
Proof.
  intros Hfresh Hlen out. subst out. rewrite (first_call f r s Hfresh).
  unfold returned, face_after, statics_after. simpl.
  repeat split. exists (init_history r f).
  unfold init_history. cbn -[fill_history replicate].
  rewrite (fill_history_all _ _ Hlen). repeat split.
Qed.

(** A call after the first reads the face record only through
    [stable_status]. *)
Lemma later_call_reads_stable_status (f g : face_detection_t)
    (r : mask_status_t) (s : statics) :
  history_count f <> 0 -> history_count g <> 0 ->
  stable_status f = stable_status g ->
  returned (apply_temporal_smoothing (Some f) r s)
  = returned (apply_temporal_smoothing (Some g) r s)
  /\ statics_after (apply_temporal_smoothing (Some f) r s)
     = statics_after (apply_temporal_smoothing (Some g) r s).
Proof.
  intros Hf Hg Hstable.
  rewrite (later_call f r s Hf), (later_call g r s Hg).
  unfold locking_logic, fallback, returned, statics_after.
  rewrite Hstable. repeat case_decide; simpl; split; reflexivity.
Qed.

(** C8: a call after the first one for a face ([history_count] nonzero on
    entry) leaves the face record exactly as it was, so [stable_status],
    [stable_count], [mask_history], [history_index] and [history_count]
    keep their values; and of the record, only [stable_status] has any
    effect on what the call returns and on the static locals. *)
Theorem later_call_keeps_face_fields :
  forall (f : face_detection_t) (r : mask_status_t) (s : statics),
    history_count f <> 0 ->
    let out := apply_temporal_smoothing (Some f) r s in
    face_after out = Some f
    /\ (exists f', face_after out = Some f'
          /\ stable_status f' = stable_status f
          /\ stable_count f' = stable_count f
          /\ mask_history f' = mask_history f
          /\ history_index f' = history_index f
          /\ history_count f' = history_count f)
    /\ (forall g : face_detection_t,
          history_count g <> 0 -> stable_status g = stable_status f ->
          returned (apply_temporal_smoothing (Some g) r s) = returned out
          /\ statics_after (apply_temporal_smoothing (Some g) r s)
             = statics_after out).
Proof.
  intros f r s Hseeded out.
  assert (Hface : face_after out = Some f).
  { subst out. rewrite (later_call f r s Hseeded).
    unfold locking_logic, fallback, face_after.
    repeat case_decide; reflexivity. }
  split; [exact Hface |]. split.
  - exists f. repeat split. exact Hface.
  - intros g Hg Hstable. subst out.
    apply later_call_reads_stable_status; assumption.
Qed.

Lemma later_call_keeps_face_fields_witness :
  let f := init_history MASK_STATUS_WITHOUT_MASK zero_face in
  let s := {| current_locked_status := MASK_STATUS_WITH_MASK;
              lock_frames_remaining := 1;
              same_result_count := 94;
              previous_result := MASK_STATUS_WITH_MASK;
              debug_frame_count := 29;
              log_output := [] |} in
  history_count f <> 0
  /\ face_after (apply_temporal_smoothing (Some f) MASK_STATUS_WITH_MASK s) = Some f.
Proof.
  intros f s.
  assert (Hseeded : history_count f <> 0) by (vm_compute; discriminate).
  split; [exact Hseeded |].
  exact (proj1 (later_call_keeps_face_fields f MASK_STATUS_WITH_MASK s Hseeded)).
Defined.

(** ** One lock for all faces *)

(** A call that changes the lock leaves the raw status as the lock and as
    the previous result, with a fresh countdown of 60 or 90. *)
Lemma lock_change_facts (face : option face_detection_t) (r : mask_status_t)
    (s : statics) :
  let s' := statics_after (apply_temporal_smoothing face r s) in
  current_locked_status s' <> current_locked_status s ->
  current_locked_status s' = r
  /\ previous_result s' = r
  /\ (lock_frames_remaining s' = 60 \/ lock_frames_remaining s' = 90).
Proof.
  intros s'. subst s'. unfold apply_temporal_smoothing.
  destruct face as [f |]; [| intros Hchg; contradiction Hchg; reflexivity].
  destruct (decide (history_count f = 0)) as [_ | _];
    [intros Hchg; contradiction Hchg; reflexivity |].
  destruct (count_consecutive_lock r s) as [Hlock Hrem].
  pose proof (count_consecutive_previous r s) as Hprev.
  set (s1 := count_consecutive r s) in *.
  rewrite <- Hlock.
  set (s2 := set_remaining (wrap32 (lock_frames_remaining s1 - 1)) s1).
  destruct (debug_output_lock r s1) as (Hdl1 & _ & _ & Hdp1).
  destruct (debug_output_lock r s2) as (Hdl2 & _ & _ & Hdp2).
  locking_cases; fold s2; rewrite ?Hdl1, ?Hdl2, ?Hdp1, ?Hdp2; simpl;
    intros Hchg; try (contradiction Hchg; reflexivity);
    unfold lock_duration; repeat case_decide; auto.
Qed.

(** While the countdown runs, a call that is not the fast exit returns
    the locked status and keeps the lock. *)
Lemma running_lock_held (f : face_detection_t) (r : mask_status_t) (s : statics) :
  history_count f <> 0 ->
  current_locked_status s <> MASK_STATUS_UNKNOWN ->
  remaining_after_decrement s > 0 ->
  ~ (current_locked_status s = MASK_STATUS_WITH_MASK
     /\ r = MASK_STATUS_WITHOUT_MASK /\ streak_after r s >= 8) ->
  returned (apply_temporal_smoothing (Some f) r s) = current_locked_status s
  /\ current_locked_status (statics_after (apply_temporal_smoothing (Some f) r s))
     = current_locked_status s.
Proof.
  intros Hseeded Hlocked Hpos Hnofast.
  rewrite (later_call f r s Hseeded).
  destruct (count_consecutive_lock r s) as [Hlock Hrem].
  unfold streak_after, remaining_after_decrement in *.
  set (s1 := count_consecutive r s) in *.
  rewrite <- Hrem in *. rewrite <- Hlock in *.
  locking_cases; lock_done.
Qed.

(** A raw status other than the previous one restarts the streak at 1. *)
Lemma streak_restarts (r : mask_status_t) (s : statics) :
  r <> previous_result s -> streak_after r s = 1.
Proof.
  intros Hdiff. unfold streak_after, count_consecutive.
  case_decide; [contradiction | reflexivity].
Qed.

(** C9: the lock, its countdown, the streak and the previous result are
    static locals, one set for all faces.  For two face records [a] and
    [b], both past their first call: when a call for [a] sets the lock to
    a new status other than [MASK_STATUS_UNKNOWN], the next call, made
    for [b], returns that locked status whatever raw status [b] brings
    and whatever [b] itself holds; and the static locals left by a call
    do not depend on which of the two faces it was made for. *)
Theorem lock_shared_by_all_faces :
  forall (a b : face_detection_t) (ra rb : mask_status_t) (s : statics),
    history_count a <> 0 ->
    history_count b <> 0 ->
    let s' := statics_after (apply_temporal_smoothing (Some a) ra s) in
    current_locked_status s' <> MASK_STATUS_UNKNOWN ->
    current_locked_status s' <> current_locked_status s ->
    returned (apply_temporal_smoothing (Some b) rb s') = current_locked_status s'
    /\ statics_after (apply_temporal_smoothing (Some b) ra s) = s'.
Proof.
  intros a b ra rb s Ha Hb s' Hlocked Hchanged.
  destruct (lock_change_facts (Some a) ra s Hchanged) as (Hval & Hprev & Hrem).
  fold s' in Hval, Hprev, Hrem.
  split.
  - apply running_lock_held; [exact Hb | exact Hlocked | |].
    + unfold remaining_after_decrement.
      destruct Hrem as [-> | ->]; vm_compute; reflexivity.
    + intros (Hwith & Hwithout & Hstreak).
      rewrite streak_restarts in Hstreak; [lia | congruence].
  - subst s'. rewrite (later_call a ra s Ha), (later_call b ra s Hb).
    unfold locking_logic, fallback, statics_after.
    repeat case_decide; reflexivity.
Qed.

Lemma lock_shared_by_all_faces_witness :
  let a := init_history MASK_STATUS_WITH_MASK zero_face in
  let b := init_history MASK_STATUS_WITHOUT_MASK zero_face in
  let s := {| current_locked_status := MASK_STATUS_UNKNOWN;
              lock_frames_remaining := 0;
              same_result_count := 4;
              previous_result := MASK_STATUS_WITH_MASK;
              debug_frame_count := 4;
              log_output := [] |} in
  let s' := statics_after (apply_temporal_smoothing (Some a) MASK_STATUS_WITH_MASK s) in
  history_count a <> 0
  /\ history_count b <> 0
  /\ current_locked_status s' <> MASK_STATUS_UNKNOWN
  /\ current_locked_status s' <> current_locked_status s
  /\ returned (apply_temporal_smoothing (Some b) MASK_STATUS_WITHOUT_MASK s')
     = MASK_STATUS_WITH_MASK.
Proof.
  intros a b s s'.
  assert (Ha : history_count a <> 0) by (vm_compute; discriminate).
  assert (Hb : history_count b <> 0) by (vm_compute; discriminate).
  assert (Hlocked : current_locked_status s' <> MASK_STATUS_UNKNOWN)
    by (vm_compute; discriminate).
  assert (Hchanged : current_locked_status s' <> current_locked_status s)
    by (vm_compute; discriminate).
  pose proof (proj1 (lock_shared_by_all_faces a b MASK_STATUS_WITH_MASK
                       MASK_STATUS_WITHOUT_MASK s Ha Hb Hlocked Hchanged)) as Hret.
  exact (conj Ha (conj Hb (conj Hlocked (conj Hchanged Hret)))).
Defined.

(** ** The lock over a sequence of calls *)

(** One call can take an active lock back to [MASK_STATUS_UNKNOWN] only
    through the switch of an expired lock, on a raw
    [MASK_STATUS_UNKNOWN]. *)
Lemma lock_cleared_only_by_unknown (face : option face_detection_t)
    (r : mask_status_t) (s : statics) :
  current_locked_status s <> MASK_STATUS_UNKNOWN ->
  current_locked_status (statics_after (apply_temporal_smoothing face r s))
  = MASK_STATUS_UNKNOWN ->
  r = MASK_STATUS_UNKNOWN
  /\ remaining_after_decrement s <= 0
  /\ streak_after r s >= 12.
Proof.
  intros Hlocked Hcleared.
  assert (Hchg : current_locked_status
                   (statics_after (apply_temporal_smoothing face r s))
                 <> current_locked_status s) by congruence.
  destruct (lock_change_facts face r s Hchg) as (Hval & _ & _).
  split; [congruence |].
  revert Hcleared. clear Hchg Hval. unfold apply_temporal_smoothing.
  destruct face as [f |]; [| intros Hc; contradiction].
  destruct (decide (history_count f = 0)) as [_ | _]; [intros Hc; contradiction |].
  destruct (count_consecutive_lock r s) as [Hlock Hrem].
  unfold streak_after, remaining_after_decrement.
  set (s1 := count_consecutive r s) in *.
  rewrite <- Hrem. rewrite <- Hlock in Hlocked.
  set (s2 := set_remaining (wrap32 (lock_frames_remaining s1 - 1)) s1).
  destruct (debug_output_lock r s2) as (Hdl2 & _).
  locking_cases; fold s2; rewrite ?Hdl2; simpl; intros Hc;
    first [contradiction | congruence | lia].
Qed.

(** C5, amended: once the lock holds a status other than
    [MASK_STATUS_UNKNOWN], no sequence of calls (for any faces, null and
    fresh ones included) whose raw statuses are all different from
    [MASK_STATUS_UNKNOWN] takes the lock back to [MASK_STATUS_UNKNOWN]. *)
Theorem lock_kept_without_unknown_input :
  forall (calls : list (option face_detection_t * mask_status_t)) (s : statics),
    Forall (fun c => c.2 <> MASK_STATUS_UNKNOWN) calls ->
    current_locked_status s <> MASK_STATUS_UNKNOWN ->
    current_locked_status (run_calls calls s) <> MASK_STATUS_UNKNOWN.
Proof.
  intros calls. induction calls as [| c calls IH]; intros s Hraws Hlocked.
  - exact Hlocked.
  - inversion Hraws as [| c' calls' Hc Hrest]; subst.
    unfold run_calls. simpl. apply IH; [exact Hrest |].
    unfold call_statics. intros Hcleared.
    destruct (lock_cleared_only_by_unknown c.1 c.2 s Hlocked Hcleared) as [Hraw _].
    exact (Hc Hraw).
Qed.

Lemma lock_kept_without_unknown_input_witness :
  let f := init_history MASK_STATUS_WITH_MASK zero_face in
  let s := {| current_locked_status := MASK_STATUS_WITH_MASK;
              lock_frames_remaining := 1;
              same_result_count := 11;
              previous_result := MASK_STATUS_INCORRECT_MASK;
              debug_frame_count := 0;
              log_output := [] |} in
  let calls := [(Some f, MASK_STATUS_INCORRECT_MASK);
                (None, MASK_STATUS_WITHOUT_MASK);
                (Some zero_face, MASK_STATUS_WITH_MASK)] in
  Forall (fun c => c.2 <> MASK_STATUS_UNKNOWN) calls
  /\ current_locked_status s <> MASK_STATUS_UNKNOWN
  /\ current_locked_status (run_calls calls s) <> MASK_STATUS_UNKNOWN.
Proof.
  intros f s calls.
  assert (Hraws : Forall (fun c => c.2 <> MASK_STATUS_UNKNOWN) calls)
    by (repeat constructor; simpl; discriminate).
  assert (Hlocked : current_locked_status s <> MASK_STATUS_UNKNOWN)
    by (simpl; discriminate).
  exact (conj Hraws (conj Hlocked
           (lock_kept_without_unknown_input calls s Hraws Hlocked))).
Defined.

(** C5 as stated fails: seed a fresh face with [MASK_STATUS_WITH_MASK]
    and repeat it five times, so that the lock is on
    [MASK_STATUS_WITH_MASK]; ninety calls with [MASK_STATUS_UNKNOWN] later
    the lock has expired under a streak of 90 and has been switched to
    [MASK_STATUS_UNKNOWN], the "no lock" value. *)
Lemma lock_cleared_by_unknown_streak :
  let locked := feed (replicate 6 MASK_STATUS_WITH_MASK) (Some zero_face)
                  initial_statics in
  let later := feed (replicate 90 MASK_STATUS_UNKNOWN) (face_after locked)
                 (statics_after locked) in
  current_locked_status (statics_after locked) = MASK_STATUS_WITH_MASK
  /\ current_locked_status (statics_after later) = MASK_STATUS_UNKNOWN.
Proof. vm_compute. split; reflexivity. Qed.

(** C4 fails on the code: seed a fresh face with
    [MASK_STATUS_WITHOUT_MASK], then feed [MASK_STATUS_WITH_MASK] only.
    The fifth such call locks [MASK_STATUS_WITH_MASK]; the next 89 calls
    return it; the 90th finds the countdown at 0 with a streak of 95 of
    the locked status, falls through to the stable status of the face and
    returns [MASK_STATUS_WITHOUT_MASK], as does every call after it,
    while the lock still reads [MASK_STATUS_WITH_MASK]. *)
Lemma same_input_after_expiry_returns_stable_status :
  let locked := feed (MASK_STATUS_WITHOUT_MASK :: replicate 5 MASK_STATUS_WITH_MASK)
                  (Some zero_face) initial_statics in
  let later := feed (replicate 92 MASK_STATUS_WITH_MASK) (face_after locked)
                 (statics_after locked) in
  current_locked_status (statics_after locked) = MASK_STATUS_WITH_MASK
  /\ lock_frames_remaining (statics_after locked) = 90
  /\ returned later
     = replicate 89 MASK_STATUS_WITH_MASK ++ replicate 3 MASK_STATUS_WITHOUT_MASK
  /\ current_locked_status (statics_after later) = MASK_STATUS_WITH_MASK.
Proof. vm_compute. repeat split; reflexivity. Qed.

(** ** The counters stay inside [int] *)

Lemma wrap32_small (z : Z) : -2147483648 <= z <= 2147483647 -> wrap32 z = z.
Proof.
  intros Hrange. unfold wrap32.
  change (2 ^ 31) with 2147483648. change (2 ^ 32) with 4294967296.
  rewrite Z.mod_small by lia. lia.
Qed.

Lemma call_keeps_counters_bounded (c : option face_detection_t * mask_status_t)
    (k : Z) (s : statics) :
  k < 2147483647 ->
  counters_bounded k s -> counters_bounded (k + 1) (call_statics s c).
Proof.
  intros Hk (Hcount & Hrem & Hdebug).
  unfold call_statics, apply_temporal_smoothing, counters_bounded.
  destruct c as [[f |] r]; simpl; [| lia].
  destruct (decide (history_count f = 0)) as [_ | _]; simpl; [lia |].
  unfold locking_logic, fallback, debug_output, count_consecutive,
    lock_duration, statics_after.
  repeat case_decide; simpl; rewrite ?wrap32_small by lia; lia.
Qed.

(** In a run of fewer than [INT_MAX] calls from the initial static
    locals, no counter has left the range of [int]: the wrap-around of
    the embedding has not been exercised, and the next increment or
    decrement does not overflow either. *)
Lemma counters_bounded_run (calls : list (option face_detection_t * mask_status_t)) :
  forall (k : Z) (s : statics),
    k + Z.of_nat (length calls) <= 2147483647 ->
    counters_bounded k s ->
    counters_bounded (k + Z.of_nat (length calls)) (run_calls calls s).
Proof.
  induction calls as [| c calls IH]; intros k s Hlen Hb.
  - simpl. rewrite Z.add_0_r. exact Hb.
  - unfold run_calls. simpl fold_left.
    replace (k + Z.of_nat (length (c :: calls)))
      with ((k + 1) + Z.of_nat (length calls)) in * by (simpl length; lia).
    apply IH; [exact Hlen |].
    apply call_keeps_counters_bounded; [lia | exact Hb].
Qed.

(** X2: from the initial static locals, after any run of fewer than
    [INT_MAX] calls (for any faces, with any raw statuses), the next
    increment of the streak, decrement of the countdown and increment of
    the debug counter stay inside [int]: the wrap-around is not
    exercised. *)
Lemma no_overflow_from_start (calls : list (option face_detection_t * mask_status_t)) :
  Z.of_nat (length calls) < 2147483647 ->
  let s := run_calls calls initial_statics in
  wrap32 (same_result_count s + 1) = same_result_count s + 1
  /\ wrap32 (lock_frames_remaining s - 1) = lock_frames_remaining s - 1
  /\ wrap32 (debug_frame_count s + 1) = debug_frame_count s + 1.
Proof.
  intros Hlen s.
  assert (Hb : counters_bounded (0 + Z.of_nat (length calls)) s).
  { apply counters_bounded_run; [lia |]. unfold counters_bounded. simpl. lia. }
  destruct Hb as (Hcount & Hrem & Hdebug).
  repeat split; apply wrap32_small; lia.
Qed.

(** ** Scenarios *)

(** The first call for a fresh face returns the raw status. *)
Example seed_returns_raw_status :
  returned (apply_temporal_smoothing (Some zero_face) MASK_STATUS_INCORRECT_MASK
              initial_statics)
  = MASK_STATUS_INCORRECT_MASK.
Proof. reflexivity. Qed.

(** Seed with [MASK_STATUS_WITH_MASK]; five more frames of it establish
    the lock (countdown 90); eight frames of [MASK_STATUS_WITHOUT_MASK]
    follow, the eighth of which is the fast exit. *)
Example mask_removed_scenario :
  let out := feed (replicate 6 MASK_STATUS_WITH_MASK
                   ++ replicate 8 MASK_STATUS_WITHOUT_MASK)
               (Some zero_face) initial_statics in
  returned out
  = replicate 13 MASK_STATUS_WITH_MASK ++ [MASK_STATUS_WITHOUT_MASK]
  /\ current_locked_status (statics_after out) = MASK_STATUS_WITHOUT_MASK
  /\ lock_frames_remaining (statics_after out) = 60.
Proof. vm_compute. repeat split; reflexivity. Qed.

(** The thirtieth call that reaches the end of the function logs the raw
    status with the streak and, under a lock, the lock with its
    countdown. *)
Example thirtieth_fallback_logs :
  let out := feed (MASK_STATUS_WITHOUT_MASK :: replicate 120 MASK_STATUS_WITH_MASK)
               (Some zero_face) initial_statics in
  debug_frame_count (statics_after out) = 30
  /\ log_output (statics_after out)
     = [mk_log "Detection status: %s (count: %d)" [ArgStr "MASK"; ArgInt 120];
        mk_log "Locked to: %s, frames left: %d" [ArgStr "MASK"; ArgInt (-25)]].
Proof. vm_compute. split; reflexivity. Qed.

(** ** More on the stabiliser *)

Lemma first_call_seeds_face_witness :
  history_count zero_face = 0
  /\ length (mask_history zero_face) = 10%nat
  /\ returned (apply_temporal_smoothing (Some zero_face) MASK_STATUS_WITHOUT_MASK
                 initial_statics) = MASK_STATUS_WITHOUT_MASK
  /\ statics_after (apply_temporal_smoothing (Some zero_face) MASK_STATUS_WITHOUT_MASK
                      initial_statics) = initial_statics.
Proof.
  assert (Hfresh : history_count zero_face = 0) by reflexivity.
  assert (Hlen : length (mask_history zero_face) = 10%nat) by reflexivity.
  destruct (first_call_seeds_face zero_face MASK_STATUS_WITHOUT_MASK initial_statics
              Hfresh Hlen) as (Hret & Hstatics & _).
  exact (conj Hfresh (conj Hlen (conj Hret Hstatics))).
Defined.

Lemma no_overflow_from_start_witness :
  let calls := [(Some zero_face, MASK_STATUS_WITH_MASK);
                (Some (init_history MASK_STATUS_WITH_MASK zero_face),
                 MASK_STATUS_WITH_MASK)] in
  Z.of_nat (length calls) < 2147483647
  /\ wrap32 (same_result_count (run_calls calls initial_statics) + 1)
     = same_result_count (run_calls calls initial_statics) + 1.
Proof.
  intros calls.
  assert (Hlen : Z.of_nat (length calls) < 2147483647) by (simpl; lia).
  exact (conj Hlen (proj1 (no_overflow_from_start calls Hlen))).
Defined.

Lemma feed_cons (r : mask_status_t) (raws : list mask_status_t)
    (face : option face_detection_t) (s : statics) :
  feed (r :: raws) face s
  = (returned (apply_temporal_smoothing face r s)
       :: returned (feed raws (face_after (apply_temporal_smoothing face r s))
                      (statics_after (apply_temporal_smoothing face r s))),
     face_after (feed raws (face_after (apply_temporal_smoothing face r s))
                   (statics_after (apply_temporal_smoothing face r s))),
     statics_after (feed raws (face_after (apply_temporal_smoothing face r s))
                      (statics_after (apply_temporal_smoothing face r s)))).
Proof. reflexivity. Qed.

(** X3: while the countdown of an active lock has not run out, the calls
    for a seeded face return the locked status whatever raw statuses come
    in, keep the lock, and take one frame off the countdown each; under a
    lock on [MASK_STATUS_WITH_MASK] this is so as long as no raw status
    is [MASK_STATUS_WITHOUT_MASK] (the only way into the fast exit). *)
Theorem running_lock_holds_for_countdown :
  forall (raws : list mask_status_t) (f : face_detection_t) (s : statics),
    history_count f <> 0 ->
    current_locked_status s <> MASK_STATUS_UNKNOWN ->
    (current_locked_status s = MASK_STATUS_WITH_MASK ->
     Forall (fun r => r <> MASK_STATUS_WITHOUT_MASK) raws) ->
    Z.of_nat (length raws) < lock_frames_remaining s <= 2147483647 ->
    let out := feed raws (Some f) s in
    returned out = replicate (length raws) (current_locked_status s)
    /\ face_after out = Some f
    /\ current_locked_status (statics_after out) = current_locked_status s
    /\ lock_frames_remaining (statics_after out)
       = lock_frames_remaining s - Z.of_nat (length raws).
Proof.
  intros raws. induction raws as [| r raws IH]; intros f s Hseeded Hlocked Hfast Hrem.
  - simpl. repeat split. lia.
  - simpl length in *. intros out. subst out. rewrite feed_cons.
    assert (Hdec : remaining_after_decrement s = lock_frames_remaining s - 1)
      by (unfold remaining_after_decrement; apply wrap32_small; lia).
    assert (Hnofast : ~ (current_locked_status s = MASK_STATUS_WITH_MASK
                         /\ r = MASK_STATUS_WITHOUT_MASK /\ streak_after r s >= 8)).
    { intros (Hwith & Hraw & _). specialize (Hfast Hwith).
      inversion Hfast as [| r' raws' Hr _]; subst. exact (Hr eq_refl). }
    assert (Hstep : returned (apply_temporal_smoothing (Some f) r s)
                    = current_locked_status s
                    /\ face_after (apply_temporal_smoothing (Some f) r s) = Some f
                    /\ current_locked_status
                         (statics_after (apply_temporal_smoothing (Some f) r s))
                       = current_locked_status s
                    /\ lock_frames_remaining
                         (statics_after (apply_temporal_smoothing (Some f) r s))
                       = lock_frames_remaining s - 1).
    { rewrite <- Hdec. rewrite (later_call f r s Hseeded).
      destruct (count_consecutive_lock r s) as [Hlock Hcr].
      unfold streak_after, remaining_after_decrement in *.
      set (s1 := count_consecutive r s) in *.
      rewrite <- Hcr in *. rewrite <- Hlock in *.
      locking_cases; lock_done. }
    destruct Hstep as (Hret & Hface & Hlock' & Hrem').
    set (out1 := apply_temporal_smoothing (Some f) r s) in *.
    rewrite Hface.
    destruct (IH f (statics_after out1)) as (IHret & IHface & IHlock & IHrem).
    + exact Hseeded.
    + rewrite Hlock'. exact Hlocked.
    + rewrite Hlock'. intros Hwith. specialize (Hfast Hwith).
      inversion Hfast; assumption.
    + rewrite Hrem'. lia.
    + unfold returned, face_after, statics_after in *. simpl.
      rewrite IHret, IHface, IHlock, IHrem, Hret, Hlock', Hrem'.
      repeat split. lia.
Qed.

Lemma running_lock_holds_for_countdown_witness :
  let f := init_history MASK_STATUS_WITH_MASK zero_face in
  let s := {| current_locked_status := MASK_STATUS_WITHOUT_MASK;
              lock_frames_remaining := 60;
              same_result_count := 8;
              previous_result := MASK_STATUS_WITHOUT_MASK;
              debug_frame_count := 0;
              log_output := [] |} in
  let raws := [MASK_STATUS_WITH_MASK; MASK_STATUS_UNKNOWN; MASK_STATUS_WITH_MASK] in
  history_count f <> 0
  /\ current_locked_status s <> MASK_STATUS_UNKNOWN
  /\ Z.of_nat (length raws) < lock_frames_remaining s <= 2147483647
  /\ returned (feed raws (Some f) s) = replicate 3 MASK_STATUS_WITHOUT_MASK.
Proof.
  intros f s raws.
  assert (Hseeded : history_count f <> 0) by (vm_compute; discriminate).
  assert (Hlocked : current_locked_status s <> MASK_STATUS_UNKNOWN)
    by (simpl; discriminate).
  assert (Hfast : current_locked_status s = MASK_STATUS_WITH_MASK ->
                  Forall (fun r => r <> MASK_STATUS_WITHOUT_MASK) raws)
    by (simpl; discriminate).
  assert (Hrem : Z.of_nat (length raws) < lock_frames_remaining s <= 2147483647)
    by (simpl; lia).
  pose proof (proj1 (running_lock_holds_for_countdown raws f s
                       Hseeded Hlocked Hfast Hrem)) as Hret.
  exact (conj Hseeded (conj Hlocked (conj Hrem Hret))).
Defined.

(** X4: the function never invents a status: what a call returns is the
    raw status, or the lock as the call leaves it (then not
    [MASK_STATUS_UNKNOWN]), or the stable status of the face (then not
    [MASK_STATUS_UNKNOWN]). *)
Theorem returned_status_provenance :
  forall (face : option face_detection_t) (r : mask_status_t) (s : statics),
    let out := apply_temporal_smoothing face r s in
    returned out = r
    \/ (returned out = current_locked_status (statics_after out)
        /\ current_locked_status (statics_after out) <> MASK_STATUS_UNKNOWN)
    \/ (exists f, face = Some f /\ returned out = stable_status f
                  /\ stable_status f <> MASK_STATUS_UNKNOWN).
Proof.
  intros face r s out. subst out. unfold apply_temporal_smoothing.
  destruct face as [f |]; [| left; reflexivity].
  destruct (decide (history_count f = 0)) as [_ | _]; [left; reflexivity |].
  set (s1 := count_consecutive r s).
  unfold locking_logic, fallback, returned, statics_after.
  repeat case_decide; simpl; auto;
    right; right; exists f; auto.
Qed.

(** X5: a call writes to the log only at the end of the function, when
    the debug counter it has just incremented is a multiple of 30, and
    then one or two lines; a call that returns from the locking logic
    under a running countdown leaves the log and the debug counter as
    they were. *)
Theorem log_written_only_on_thirtieth_fall_through :
  forall (face : option face_detection_t) (r : mask_status_t) (s : statics),
    let s' := statics_after (apply_temporal_smoothing face r s) in
    (exists lines : list log_call,
        log_output s' = log_output s ++ lines
        /\ (length lines <= 2)%nat
        /\ (lines <> [] ->
            debug_frame_count s' = wrap32 (debug_frame_count s + 1)
            /\ Z.rem (debug_frame_count s') 30 = 0))
    /\ (current_locked_status s <> MASK_STATUS_UNKNOWN ->
        remaining_after_decrement s > 0 ->
        log_output s' = log_output s
        /\ debug_frame_count s' = debug_frame_count s).
Proof.
  intros face r s s'. subst s'. unfold apply_temporal_smoothing.
  destruct face as [f |]; simpl.
  2:{ split; [| auto]. exists []. rewrite app_nil_r.
      split; [reflexivity | split; [simpl; lia | congruence]]. }
  destruct (decide (history_count f = 0)) as [_ | _]; simpl.
  { split; [| auto]. exists []. rewrite app_nil_r.
    split; [reflexivity | split; [simpl; lia | congruence]]. }
  assert (Hcc : log_output (count_consecutive r s) = log_output s
                /\ debug_frame_count (count_consecutive r s) = debug_frame_count s
                /\ current_locked_status (count_consecutive r s) = current_locked_status s
                /\ lock_frames_remaining (count_consecutive r s) = lock_frames_remaining s)
    by (unfold count_consecutive; case_decide; repeat split).
  destruct Hcc as (Hlog & Hdbg & Hlock & Hrem).
  unfold remaining_after_decrement.
  set (s1 := count_consecutive r s) in *.
  rewrite <- Hlog, <- Hdbg, <- Hlock, <- Hrem.
  unfold locking_logic, fallback, debug_output, statics_after.
  split.
  - repeat case_decide; simpl;
      first
        [ exists []; rewrite app_nil_r;
          split; [reflexivity | split; [simpl; lia | congruence]]
        | eexists [_];
          split; [reflexivity | split; [simpl; lia | intros _; split; [reflexivity | assumption]]]
        | eexists [_; _]; rewrite <- app_assoc;
          split; [reflexivity | split; [simpl; lia | intros _; split; [reflexivity | assumption]]] ].
  - intros Hlocked Hpos.
    repeat case_decide; simpl; first [split; reflexivity | contradiction | lia].
Qed.

(** ** [detect_faces] *)

Lemma log_lines_fields (lines : list log_call) (s : statics) :
  current_locked_status (log_lines lines s) = current_locked_status s
  /\ lock_frames_remaining (log_lines lines s) = lock_frames_remaining s
  /\ same_result_count (log_lines lines s) = same_result_count s
  /\ previous_result (log_lines lines s) = previous_result s
  /\ debug_frame_count (log_lines lines s) = debug_frame_count s.
Proof.
  revert s. induction lines as [| l lines IH]; intros s; [repeat split |].
  unfold log_lines in *. simpl fold_left.
  destruct (IH (log_info (log_format l) (log_args l) s)) as (H1 & H2 & H3 & H4 & H5).
  rewrite H1, H2, H3, H4, H5. repeat split.
Qed.

Lemma later_call_face (f : face_detection_t) (r : mask_status_t) (s : statics) :
  history_count f <> 0 ->
  face_after (apply_temporal_smoothing (Some f) r s) = Some f.
Proof.
  intros Hseeded. rewrite (later_call f r s Hseeded).
  unfold locking_logic, fallback, face_after. repeat case_decide; reflexivity.
Qed.

(** One call under a running lock, the fast exit excluded. *)
Lemma running_lock_step (f : face_detection_t) (r : mask_status_t) (s : statics) :
  history_count f <> 0 ->
  current_locked_status s <> MASK_STATUS_UNKNOWN ->
  ~ (current_locked_status s = MASK_STATUS_WITH_MASK /\ r = MASK_STATUS_WITHOUT_MASK) ->
  1 < lock_frames_remaining s <= 2147483647 ->
  let out := apply_temporal_smoothing (Some f) r s in
  returned out = current_locked_status s
  /\ current_locked_status (statics_after out) = current_locked_status s
  /\ lock_frames_remaining (statics_after out) = lock_frames_remaining s - 1.
Proof.
  intros Hseeded Hlocked Hnofast Hrem out. subst out.
  assert (Hdec : wrap32 (lock_frames_remaining s - 1) = lock_frames_remaining s - 1)
    by (apply wrap32_small; lia).
  rewrite (later_call f r s Hseeded).
  destruct (count_consecutive_lock r s) as [Hlock Hcr].
  set (s1 := count_consecutive r s) in *.
  rewrite <- Hcr in *. rewrite <- Hlock in *.
  locking_cases; rewrite ?Hdec in *; lock_done.
Qed.

(** The loop keeps the length of the array and writes only to the slots
    it visits. *)
Lemma detect_loop_length (n i : nat) (frame : frame_t) (rects : list rect_t)
    (faces : list face_detection_t) (s : statics) :
  length (detect_loop n i frame rects faces s).1 = length faces.
Proof.
  revert i faces s. induction n as [| n IH]; intros i faces s; [reflexivity |].
  simpl. destruct (rects !! i) as [r |]; [| apply IH].
  destruct (faces !! i) as [f |]; [| apply IH].
  rewrite IH. apply length_insert.
Qed.

Lemma detect_loop_outside (n i j : nat) (frame : frame_t) (rects : list rect_t)
    (faces : list face_detection_t) (s : statics) :
  (j < i \/ i + n <= j)%nat ->
  (detect_loop n i frame rects faces s).1 !! j = faces !! j.
Proof.
  revert i faces s. induction n as [| n IH]; intros i faces s Hout; [reflexivity |].
  simpl. destruct (rects !! i) as [r |]; [| apply IH; lia].
  destruct (faces !! i) as [f |]; [| apply IH; lia].
  rewrite IH by lia. apply list_lookup_insert_ne. lia.
Qed.

(** A property of a face record that the loop body keeps is kept by the
    loop, slot by slot. *)
Lemma detect_loop_slot (P : face_detection_t -> Prop) :
  (forall frame i r f s, P f -> P (detect_one frame i r f s).1) ->
  forall (n i j : nat) (frame : frame_t) (rects : list rect_t)
         (faces : list face_detection_t) (s : statics) (f : face_detection_t),
    faces !! j = Some f -> P f ->
    exists f', (detect_loop n i frame rects faces s).1 !! j = Some f' /\ P f'.
Proof.
  intros Hbody n. induction n as [| n IH]; intros i j frame rects faces s f Hj HP.
  - exists f. split; assumption.
  - simpl. destruct (rects !! i) as [r |]; [| eapply IH; eassumption].
    destruct (faces !! i) as [fi |] eqn:Hi; [| eapply IH; eassumption].
    destruct (decide (i = j)) as [-> | Hne].
    + eapply IH.
      * apply list_lookup_insert_eq. eapply lookup_lt_Some; eassumption.
      * assert (fi = f) by congruence. subst fi. apply Hbody. exact HP.
    + eapply IH; [| exact HP].
      rewrite list_lookup_insert_ne by exact Hne. exact Hj.
Qed.

(** The loop body leaves the smoothing fields of a seeded face alone. *)
Lemma detect_one_seeded (frame : frame_t) (i : nat) (r : rect_t)
    (f : face_detection_t) (s : statics) :
  history_count f <> 0 ->
  (detect_one frame i r f s).1
  = set_mask (returned (apply_temporal_smoothing (Some (set_rect r f))
                          (raw_mask_status (classify frame i r))
                          (log_lines (classifier_log (classify frame i r)) s)))
      (raw_mask_confidence (classify frame i r)) (set_rect r f).
Proof.
  intros Hseeded. unfold detect_one. cbv zeta. cbn [fst].
  rewrite later_call_face by exact Hseeded. reflexivity.
Qed.

(** X6: what [detect_faces] does when it detects nothing.  When [state]
    or [faces] is null, the frame is empty or [max_faces] is not
    positive, it returns 0 and writes nothing: no face slot, no static
    local, no log line.  When OpenCV throws during the detection, it
    returns 0 as well and leaves the faces array, its own static counters
    and the lock, countdown, streak, previous result and debug counter of
    the smoothing as they were, but it logs one error line with the text
    of the exception. *)
Theorem detect_faces_rejected :
  forall (state_null : bool) (frame : frame_t)
         (faces : option (list face_detection_t)) (max_faces : Z)
         (ds : detect_statics),
    (state_null = true \/ frame_empty frame = true \/ faces = None
     \/ max_faces <= 0 ->
     detect_faces state_null frame faces max_faces ds = (0, faces, ds))
    /\ (state_null = false -> frame_empty frame = false -> faces <> None ->
        0 < max_faces -> face_rects frame = None ->
        let out := detect_faces state_null frame faces max_faces ds in
        out.1.1 = 0
        /\ out.1.2 = faces
        /\ face_debug_counter out.2 = face_debug_counter ds
        /\ last_face_count out.2 = last_face_count ds
        /\ log_output (smoothing out.2)
           = log_output (smoothing ds)
             ++ [mk_log "OpenCV exception in face detection: %s"
                   [ArgStr (exception_what frame)]]
        /\ current_locked_status (smoothing out.2)
           = current_locked_status (smoothing ds)
        /\ lock_frames_remaining (smoothing out.2)
           = lock_frames_remaining (smoothing ds)
        /\ same_result_count (smoothing out.2) = same_result_count (smoothing ds)
        /\ previous_result (smoothing out.2) = previous_result (smoothing ds)
        /\ debug_frame_count (smoothing out.2) = debug_frame_count (smoothing ds)).
Proof.
  intros state_null frame faces max_faces ds. split.
  - intros Hbad. unfold detect_faces.
    destruct faces as [fs |]; [| reflexivity].
    destruct state_null; [reflexivity |].
    destruct (frame_empty frame); [reflexivity |].
    simpl. case_bool_decide as Hmax; [reflexivity |].
    destruct Hbad as [Hb | [Hb | [Hb | Hb]]]; (discriminate || lia).
  - intros Hstate Hframe Hfaces Hmax Hthrow out. subst out state_null.
    unfold detect_faces. rewrite Hframe, Hthrow.
    destruct faces as [fs |]; [| contradiction].
    simpl orb. case_bool_decide; [lia |].
    cbn [fst snd smoothing face_debug_counter last_face_count].
    repeat split.
Qed.

Lemma detect_faces_rejected_witness :
  let frame := {| frame_empty := false;
                  face_rects := None;
                  exception_what := "(-215:Assertion failed) !empty()";
                  classify := fun _ _ =>
                    mk_classification MASK_STATUS_WITH_MASK 1%float [] |} in
  let out := detect_faces false frame (Some [zero_face]) 20 initial_detect_statics in
  out.1.1 = 0
  /\ out.1.2 = Some [zero_face]
  /\ log_output (smoothing out.2)
     = [mk_log "OpenCV exception in face detection: %s"
          [ArgStr "(-215:Assertion failed) !empty()"]].
Proof.
  intros frame out. subst out.
  destruct (proj2 (detect_faces_rejected false frame (Some [zero_face]) 20
                     initial_detect_statics)
              eq_refl eq_refl ltac:(discriminate) ltac:(lia) eq_refl)
    as (Hcount & Hfaces & _ & _ & Hlog & _).
  exact (conj Hcount (conj Hfaces Hlog)).
Defined.

(** X7: on valid arguments [detect_faces] returns the number of
    rectangles found, capped at [max_faces]; the array keeps its length,
    and the slots from the returned count on are exactly as they were. *)
Theorem detect_faces_count :
  forall (frame : frame_t) (rects : list rect_t) (fs : list face_detection_t)
         (max_faces : Z) (ds : detect_statics),
    frame_empty frame = false ->
    face_rects frame = Some rects ->
    0 < max_faces ->
    Z.of_nat (length rects) <= 2147483647 ->
    let out := detect_faces false frame (Some fs) max_faces ds in
    out.1.1 = Z.min (Z.of_nat (length rects)) max_faces
    /\ 0 <= out.1.1 <= max_faces
    /\ exists fs', out.1.2 = Some fs'
         /\ length fs' = length fs
         /\ forall j : nat, out.1.1 <= Z.of_nat j -> fs' !! j = fs !! j.
Proof.
  intros frame rects fs max_faces ds Hframe Hrects Hmax Hlen out. subst out.
  unfold detect_faces. rewrite Hframe, Hrects. simpl.
  case_bool_decide; [lia |].
  rewrite wrap32_small by lia. simpl.
  split; [reflexivity |]. split; [lia |].
  eexists. split; [reflexivity |]. split.
  - apply detect_loop_length.
  - intros j Hj. apply detect_loop_outside. lia.
Qed.

Lemma detect_faces_count_witness :
  let frame := {| frame_empty := false;
                  face_rects := Some [mk_rect 10 10 50 50; mk_rect 80 20 40 40;
                                      mk_rect 5 90 30 30];
                  exception_what := "";
                  classify := fun _ _ =>
                    mk_classification MASK_STATUS_WITH_MASK 1%float [] |} in
  let fs := replicate 4 zero_face in
  frame_empty frame = false
  /\ 0 < 2
  /\ (detect_faces false frame (Some fs) 2 initial_detect_statics).1.1 = 2.
Proof.
  intros frame fs.
  assert (Hframe : frame_empty frame = false) by reflexivity.
  assert (Hmax : 0 < 2) by lia.
  assert (Hlen : Z.of_nat (length [mk_rect 10 10 50 50; mk_rect 80 20 40 40;
                                   mk_rect 5 90 30 30]) <= 2147483647)
    by (simpl; lia).
  pose proof (proj1 (detect_faces_count frame _ fs 2 initial_detect_statics
                       Hframe eq_refl Hmax Hlen)) as Hcount.
  exact (conj Hframe (conj Hmax Hcount)).
Defined.

Lemma detect_faces_slot (P : face_detection_t -> Prop) :
  (forall frame i r f s, P f -> P (detect_one frame i r f s).1) ->
  forall (state_null : bool) (frame : frame_t) (fs : list face_detection_t)
         (max_faces : Z) (ds : detect_statics) (j : nat) (f : face_detection_t),
    fs !! j = Some f -> P f ->
    exists fs' f',
      (detect_faces state_null frame (Some fs) max_faces ds).1.2 = Some fs'
      /\ fs' !! j = Some f' /\ P f'.
Proof.
  intros Hbody state_null frame fs max_faces ds j f Hj HP. unfold detect_faces.
  destruct (state_null || frame_empty frame || bool_decide (max_faces <= 0));
    [exists fs, f; auto |].
  destruct (face_rects frame) as [rects |]; [| exists fs, f; auto].
  simpl.
  edestruct (detect_loop_slot P Hbody) as (f' & Hf' & HP'); [exact Hj | exact HP |].
  eexists _, f'. split; [reflexivity |]. split; [exact Hf' | exact HP'].
Qed.

Lemma detect_frames_slot (P : face_detection_t -> Prop) :
  (forall frame i r f s, P f -> P (detect_one frame i r f s).1) ->
  forall (frames : list frame_t) (faces : list face_detection_t) (max_faces : Z)
         (ds : detect_statics) (j : nat) (f : face_detection_t),
    faces !! j = Some f -> P f ->
    exists f', (detect_frames frames faces max_faces ds).1 !! j = Some f' /\ P f'.
Proof.
  intros Hbody frames.
  induction frames as [| frame frames IH]; intros faces max_faces ds j f Hj HP.
  - exists f. split; assumption.
  - cbn [detect_frames]. cbv zeta.
    destruct (detect_faces_slot P Hbody false frame faces max_faces ds j f Hj HP)
      as (fs' & f' & Hout & Hj' & HP').
    rewrite Hout. eapply IH; eassumption.
Qed.

(** X8: the smoothing fields belong to the array slot, not to a person:
    once a slot has been seeded ([history_count] nonzero), no number of
    frames writes its history buffer, its history index and count or its
    stable status and count again, whatever rectangles and
    classifications the frames bring. *)
Theorem seeded_slot_never_reseeded :
  forall (frames : list frame_t) (faces : list face_detection_t) (max_faces : Z)
         (ds : detect_statics) (j : nat) (f : face_detection_t),
    faces !! j = Some f ->
    history_count f <> 0 ->
    exists f', (detect_frames frames faces max_faces ds).1 !! j = Some f'
               /\ smoothing_fields f' = smoothing_fields f.
Proof.
  intros frames faces max_faces ds j f Hj Hseeded.
  apply (detect_frames_slot
           (fun f' : face_detection_t => smoothing_fields f' = smoothing_fields f))
    with (f := f); [| exact Hj | reflexivity].
  intros frame i r f' s HP.
  assert (Hcount : history_count f' <> 0).
  { unfold smoothing_fields in HP. injection HP as _ _ Hc _ _. congruence. }
  rewrite detect_one_seeded by exact Hcount. exact HP.
Qed.

Lemma seeded_slot_never_reseeded_witness :
  let seeded := init_history MASK_STATUS_WITHOUT_MASK zero_face in
  let frame := {| frame_empty := false;
                  face_rects := Some [mk_rect 10 10 50 50];
                  exception_what := "";
                  classify := fun _ _ =>
                    mk_classification MASK_STATUS_WITH_MASK 1%float [] |} in
  [seeded] !! 0%nat = Some seeded
  /\ history_count seeded <> 0
  /\ exists f', (detect_frames [frame; frame] [seeded] 20
                   initial_detect_statics).1 !! 0%nat = Some f'
                /\ smoothing_fields f' = smoothing_fields seeded.
Proof.
  intros seeded frame.
  assert (Hj : [seeded] !! 0%nat = Some seeded) by reflexivity.
  assert (Hseeded : history_count seeded <> 0) by (vm_compute; discriminate).
  exact (conj Hj (conj Hseeded
           (seeded_slot_never_reseeded [frame; frame] [seeded] 20
              initial_detect_statics 0 seeded Hj Hseeded))).
Defined.

Lemma detect_loop_running_lock (n : nat) :
  forall (i : nat) (frame : frame_t) (rects : list rect_t)
         (faces : list face_detection_t) (s : statics),
    (i + n <= length rects)%nat ->
    (forall j, (i <= j < i + n)%nat ->
               exists f, faces !! j = Some f /\ history_count f <> 0) ->
    current_locked_status s <> MASK_STATUS_UNKNOWN ->
    (current_locked_status s = MASK_STATUS_WITH_MASK ->
     forall j r, (i <= j < i + n)%nat -> rects !! j = Some r ->
                 raw_mask_status (classify frame j r) <> MASK_STATUS_WITHOUT_MASK) ->
    Z.of_nat n < lock_frames_remaining s <= 2147483647 ->
    let out := detect_loop n i frame rects faces s in
    (forall j, (i <= j < i + n)%nat ->
               exists f', out.1 !! j = Some f'
                          /\ mask_status f' = current_locked_status s)
    /\ current_locked_status out.2 = current_locked_status s
    /\ lock_frames_remaining out.2 = lock_frames_remaining s - Z.of_nat n.
Proof.
  induction n as [| n IH]; intros i frame rects faces s Hlen Hseeded Hlocked Hfast Hrem out.
  - subst out. simpl. split; [intros j Hj; lia |]. split; [reflexivity | lia].
  - subst out. cbn [detect_loop].
    destruct (lookup_lt_is_Some_2 rects i ltac:(lia)) as [r Hr].
    destruct (Hseeded i ltac:(lia)) as (f & Hf & Hcount).
    rewrite Hr, Hf. cbv zeta.
    destruct (log_lines_fields (classifier_log (classify frame i r)) s)
      as (Hl1 & Hl2 & _).
    set (s1 := log_lines (classifier_log (classify frame i r)) s) in *.
    assert (Hstep := running_lock_step (set_rect r f)
                       (raw_mask_status (classify frame i r)) s1 Hcount).
    rewrite Hl1, Hl2 in Hstep.
    destruct Hstep as (Hret & Hlock' & Hrem'); [exact Hlocked | | lia |].
    { intros [Hwith Hraw]. exact (Hfast Hwith i r ltac:(lia) Hr Hraw). }
    assert (Hone : (detect_one frame i r f s).1
                   = set_mask (current_locked_status s)
                       (raw_mask_confidence (classify frame i r)) (set_rect r f)).
    { rewrite detect_one_seeded by exact Hcount. fold s1. rewrite Hret. reflexivity. }
    assert (Htwo : (detect_one frame i r f s).2
                   = statics_after (apply_temporal_smoothing (Some (set_rect r f))
                                      (raw_mask_status (classify frame i r)) s1))
      by reflexivity.
    set (fs1 := detect_one frame i r f s) in *.
    destruct (IH (S i) frame rects (<[i := fs1.1]> faces) fs1.2)
      as (IHslots & IHlock & IHrem).
    + lia.
    + intros j Hj. rewrite list_lookup_insert_ne by lia. apply Hseeded. lia.
    + rewrite Htwo, Hlock'. exact Hlocked.
    + rewrite Htwo, Hlock'. intros Hwith j r' Hj. apply Hfast; [exact Hwith | lia].
    + rewrite Htwo, Hrem'. lia.
    + rewrite Htwo, Hlock', Hrem' in *. split; [| split; [exact IHlock | lia]].
      intros j Hj. destruct (decide (j = i)) as [-> | Hne].
      * rewrite detect_loop_outside by lia.
        rewrite list_lookup_insert_eq by (eapply lookup_lt_Some; exact Hf).
        exists fs1.1. split; [reflexivity |]. rewrite Hone. reflexivity.
      * apply IHslots. lia.
Qed.

(** X9: the lock is shared by the faces of a frame and its countdown
    counts calls, not frames.  On valid arguments, with every visited
    slot already seeded and a lock whose countdown exceeds the number of
    faces, every face of the frame is reported with the locked status
    whatever its own classification says (under a lock on
    [MASK_STATUS_WITH_MASK]: as long as none is classified
    [MASK_STATUS_WITHOUT_MASK]), and the frame takes as many units off
    the countdown as it has faces. *)
Theorem frame_shares_running_lock :
  forall (frame : frame_t) (rects : list rect_t) (fs : list face_detection_t)
         (max_faces : Z) (ds : detect_statics),
    frame_empty frame = false ->
    face_rects frame = Some rects ->
    0 < max_faces ->
    Z.of_nat (length rects) <= 2147483647 ->
    let count := Z.to_nat (Z.min (Z.of_nat (length rects)) max_faces) in
    (forall j, (j < count)%nat -> exists f, fs !! j = Some f /\ history_count f <> 0) ->
    current_locked_status (smoothing ds) <> MASK_STATUS_UNKNOWN ->
    (current_locked_status (smoothing ds) = MASK_STATUS_WITH_MASK ->
     forall j r, (j < count)%nat -> rects !! j = Some r ->
                 raw_mask_status (classify frame j r) <> MASK_STATUS_WITHOUT_MASK) ->
    Z.of_nat count < lock_frames_remaining (smoothing ds) <= 2147483647 ->
    let out := detect_faces false frame (Some fs) max_faces ds in
    (exists fs', out.1.2 = Some fs'
       /\ forall j, (j < count)%nat ->
            exists f', fs' !! j = Some f'
                       /\ mask_status f' = current_locked_status (smoothing ds))
    /\ current_locked_status (smoothing out.2) = current_locked_status (smoothing ds)
    /\ lock_frames_remaining (smoothing out.2)
       = lock_frames_remaining (smoothing ds) - Z.of_nat count.
Proof.
  intros frame rects fs max_faces ds Hframe Hrects Hmax Hlen count Hseeded Hlocked
    Hfast Hrem out. subst out.
  unfold detect_faces. rewrite Hframe, Hrects. simpl orb.
  case_bool_decide; [lia |]. cbv zeta. cbn [fst snd smoothing].
  assert (Hdbg : current_locked_status (smoothing (face_debug rects max_faces ds))
                 = current_locked_status (smoothing ds)
                 /\ lock_frames_remaining (smoothing (face_debug rects max_faces ds))
                    = lock_frames_remaining (smoothing ds)).
  { unfold face_debug. case_decide; simpl; [| split; reflexivity].
    destruct (log_lines_fields (face_debug_lines rects max_faces) (smoothing ds))
      as (H1 & H2 & _). split; assumption. }
  destruct Hdbg as [Hdl Hdr].
  assert (Hcount : Z.to_nat (Z.min (wrap32 (Z.of_nat (length rects))) max_faces) = count).
  { subst count. rewrite wrap32_small by lia. reflexivity. }
  rewrite Hcount.
  destruct (detect_loop_running_lock count 0 frame rects fs
              (smoothing (face_debug rects max_faces ds)))
    as (Hslots & Hlock' & Hrem').
  - subst count. lia.
  - intros j Hj. apply Hseeded. lia.
  - rewrite Hdl. exact Hlocked.
  - rewrite Hdl. intros Hwith j r Hj. apply Hfast; [exact Hwith | lia].
  - rewrite Hdr. exact Hrem.
  - rewrite Hdl, Hdr in *. split; [| split; assumption].
    eexists. split; [reflexivity |]. intros j Hj. apply Hslots. lia.
Qed.

Lemma frame_shares_running_lock_witness :
  let frame := {| frame_empty := false;
                  face_rects := Some [mk_rect 10 10 50 50; mk_rect 80 20 40 40];
                  exception_what := "";
                  classify := fun i _ =>
                    mk_classification
                      (if decide (i = 0%nat) then MASK_STATUS_WITH_MASK
                       else MASK_STATUS_INCORRECT_MASK) 1%float [] |} in
  let fs := [init_history MASK_STATUS_WITH_MASK zero_face;
             init_history MASK_STATUS_UNKNOWN zero_face] in
  let ds := {| smoothing := {| current_locked_status := MASK_STATUS_WITHOUT_MASK;
                               lock_frames_remaining := 60;
                               same_result_count := 8;
                               previous_result := MASK_STATUS_WITHOUT_MASK;
                               debug_frame_count := 0;
                               log_output := [] |};
               face_debug_counter := 7;
               last_face_count := 2 |} in
  frame_empty frame = false
  /\ current_locked_status (smoothing ds) <> MASK_STATUS_UNKNOWN
  /\ 2 < lock_frames_remaining (smoothing ds) <= 2147483647
  /\ lock_frames_remaining (smoothing (detect_faces false frame (Some fs) 20 ds).2)
     = 58.
Proof.
  intros frame fs ds.
  assert (Hframe : frame_empty frame = false) by reflexivity.
  assert (Hlocked : current_locked_status (smoothing ds) <> MASK_STATUS_UNKNOWN)
    by (simpl; discriminate).
  assert (Hrem : 2 < lock_frames_remaining (smoothing ds) <= 2147483647)
    by (simpl; lia).
  assert (Hseeded : forall j, (j < 2)%nat ->
                      exists f, fs !! j = Some f /\ history_count f <> 0).
  { intros j Hj. destruct j as [| [| j]]; [| | lia];
      eexists; (split; [reflexivity | vm_compute; discriminate]). }
  assert (Hfast : current_locked_status (smoothing ds) = MASK_STATUS_WITH_MASK ->
                  forall j r, (j < 2)%nat ->
                    [mk_rect 10 10 50 50; mk_rect 80 20 40 40] !! j = Some r ->
                    raw_mask_status (classify frame j r) <> MASK_STATUS_WITHOUT_MASK)
    by (simpl; discriminate).
  pose proof (frame_shares_running_lock frame _ fs 20 ds Hframe eq_refl
                ltac:(lia) ltac:(simpl; lia) Hseeded Hlocked Hfast Hrem)
    as (_ & _ & Hcountdown).
  exact (conj Hframe (conj Hlocked (conj Hrem Hcountdown))).
Defined.

(** ** Regions of interest *)

(** X10: a region made by [create_roi] is accepted by [is_valid_roi] for
    an image of [image_width] by [image_height] exactly when it has a
    positive size, starts at non-negative coordinates and ends inside the
    image (the sums [x + width] and [y + height] being representable as
    [int]). *)
Theorem created_roi_valid_iff_inside :
  forall (rx ry rw rh image_width image_height : Z),
    -2147483648 <= rx + rw <= 2147483647 ->
    -2147483648 <= ry + rh <= 2147483647 ->
    is_valid_roi (Some (create_roi rx ry rw rh)) image_width image_height = true
    <-> (0 <= rx /\ 0 <= ry /\ 0 < rw /\ 0 < rh
         /\ rx + rw <= image_width /\ ry + rh <= image_height).
Proof.
  intros rx ry rw rh image_width image_height Hx Hy.
  unfold is_valid_roi, create_roi. simpl.
  rewrite !wrap32_small by lia.
  destruct (bool_decide (rw > 0)) eqn:Hw; destruct (bool_decide (rh > 0)) eqn:Hh;
    simpl;
    try apply bool_decide_eq_true in Hw; try apply bool_decide_eq_false in Hw;
    try apply bool_decide_eq_true in Hh; try apply bool_decide_eq_false in Hh;
    [| split; [discriminate | lia] ..].
  rewrite !andb_true_iff, !bool_decide_eq_true. lia.
Qed.

Lemma created_roi_valid_iff_inside_witness :
  -2147483648 <= 10 + 100 <= 2147483647
  /\ is_valid_roi (Some (create_roi 10 10 100 100)) 200 200 = true.
Proof.
  assert (Hsum : -2147483648 <= 10 + 100 <= 2147483647) by lia.
  split; [exact Hsum |].
  apply (created_roi_valid_iff_inside 10 10 100 100 200 200 Hsum Hsum). lia.
Defined.

(** X11: for a face that lies inside an image of [cols] by [rows] pixels
    with a positive size, and a non-negative padding, the rectangle that
    [crop_face_region] cuts out starts at non-negative coordinates, stays
    inside the image, has a positive size and covers the face. *)
Theorem crop_rect_inside_image_covers_face :
  forall (cols rows : Z) (face : face_detection_t) (padding : Z),
    0 <= padding ->
    0 <= x face -> 0 <= y face ->
    0 < width face -> 0 < height face ->
    x face + width face <= cols <= 2147483647 ->
    y face + height face <= rows <= 2147483647 ->
    width face + 2 * padding <= 2147483647 ->
    height face + 2 * padding <= 2147483647 ->
    let r := crop_face_rect cols rows face padding in
    0 <= rect_x r <= x face
    /\ 0 <= rect_y r <= y face
    /\ 0 < rect_width r /\ 0 < rect_height r
    /\ x face + width face <= rect_x r + rect_width r <= cols
    /\ y face + height face <= rect_y r + rect_height r <= rows.
Proof.
  intros cols rows face padding Hp Hx Hy Hw Hh Hcols Hrows Hwp Hhp r. subst r.
  unfold crop_face_rect. cbn [rect_x rect_y rect_width rect_height].
  rewrite (wrap32_small (2 * padding)) by lia.
  rewrite (wrap32_small (x face - padding)) by lia.
  rewrite (wrap32_small (y face - padding)) by lia.
  rewrite (wrap32_small (width face + 2 * padding)) by lia.
  rewrite (wrap32_small (height face + 2 * padding)) by lia.
  rewrite (wrap32_small (cols - _)) by lia.
  rewrite (wrap32_small (rows - _)) by lia.
  lia.
Qed.

Lemma crop_rect_inside_image_covers_face_witness :
  let face := set_rect (mk_rect 5 200 100 120) zero_face in
  0 <= 10
  /\ x face + width face <= 640 <= 2147483647
  /\ 0 < rect_width (crop_face_rect 640 480 face 10).
Proof.
  intros face.
  pose proof (crop_rect_inside_image_covers_face 640 480 face 10
                ltac:(lia) ltac:(simpl; lia) ltac:(simpl; lia) ltac:(simpl; lia)
                ltac:(simpl; lia) ltac:(simpl; lia) ltac:(simpl; lia)
                ltac:(simpl; lia) ltac:(simpl; lia)) as Hcrop.
  destruct Hcrop as (_ & _ & Hwidth & _).
  split; [lia |]. split; [simpl; lia |]. exact Hwidth.
Defined.

(** ** Strings and keys *)

(** X12: [mask_status_to_string] gives different statuses different
    strings, so that the status can be read back from the string. *)
Theorem mask_status_to_string_injective :
  forall a b : mask_status_t,
    mask_status_to_string a = mask_status_to_string b -> a = b.
Proof. intros a b Heq. destruct a, b; (reflexivity || discriminate Heq). Qed.

Lemma mask_status_to_string_injective_witness :
  mask_status_to_string MASK_STATUS_WITH_MASK = "With Mask"%string
  /\ MASK_STATUS_WITH_MASK = MASK_STATUS_WITH_MASK.
Proof.
  split; [reflexivity |].
  exact (mask_status_to_string_injective MASK_STATUS_WITH_MASK
           MASK_STATUS_WITH_MASK eq_refl).
Defined.

(** X13: for a non-null state [handle_key_input] returns [FMD_SUCCESS]
    for every key.  It clears [running] exactly on [q] and ESC (not on
    [Q]) and never sets it; it flips [save_output] exactly on [s] and
    [S], and [verbose] exactly on [v] and [V]; everything else in the
    state, the detections included, stays as it was. *)
Theorem handle_key_input_effect :
  forall (st : app_state_t) (key : Z) (log : list log_call),
    let out := handle_key_input (Some st) key log in
    out.1.1 = FMD_SUCCESS
    /\ exists st', out.1.2 = Some st'
       /\ running st'
          = (if decide (key = 113 \/ key = 27) then false else running st)
       /\ save_output (config st')
          = (if decide (key = 115 \/ key = 83)
             then negb (save_output (config st)) else save_output (config st))
       /\ verbose (config st')
          = (if decide (key = 118 \/ key = 86)
             then negb (verbose (config st)) else verbose (config st))
       /\ set_running (running st)
            (set_config (set_save_output (save_output (config st))
                           (set_verbose (verbose (config st)) (config st'))) st')
          = st.
Proof.
  intros st key log out. subst out.
  destruct st as [c run dets dcount fcount f]. destruct c.
  unfold handle_key_input, key_q, key_ESC, key_s, key_S, key_v, key_V, key_p,
    key_P, key_r, key_R.
  repeat case_decide; simpl;
    (split; [reflexivity |]); eexists; (split; [reflexivity |]); simpl;
    repeat case_decide; repeat split; try reflexivity; lia.
Qed.

(** X14: pressing [s] or [S] twice, or [v] or [V] twice, leaves the
    state as it was before the two key presses; each press logs one
    line. *)
Theorem toggle_key_twice_restores_state :
  forall (st : app_state_t) (k1 k2 : Z) (log : list log_call),
    ((k1 = 115 \/ k1 = 83) /\ (k2 = 115 \/ k2 = 83))
    \/ ((k1 = 118 \/ k1 = 86) /\ (k2 = 118 \/ k2 = 86)) ->
    let out1 := handle_key_input (Some st) k1 log in
    let out2 := handle_key_input out1.1.2 k2 out1.2 in
    out2.1.2 = Some st
    /\ out1.1.2 <> Some st
    /\ length out2.2 = S (S (length log)).
Proof.
  intros st k1 k2 log Hkeys out1 out2. subst out1 out2.
  destruct st as [c run dets dcount fcount f]. destruct c.
  unfold handle_key_input, key_q, key_ESC, key_s, key_S, key_v, key_V, key_p,
    key_P, key_r, key_R.
  repeat case_decide; try (exfalso; lia); simpl;
    repeat case_decide; try (exfalso; lia); simpl;
    rewrite ?negb_involutive, ?length_app; simpl;
    (split; [reflexivity |]);
    (split; [| lia]);
    match goal with
    | |- Some _ <> Some _ =>
        let H := fresh in
        intros H; injection H; intros;
        match goal with
        | Hb : negb ?b = ?b |- _ => destruct b; discriminate Hb
        end
    end.
Qed.

Lemma toggle_key_twice_restores_state_witness :
  let st := {| config := {| model_path := "models/mask_detector.onnx";
                            config_path := "config/face_mask_detector.conf";
                            cascade_path := "models/haarcascade_frontalface_alt.xml";
                            input_path := ""; output_path := "";
                            camera_index := 0;
                            confidence_threshold := 0.5%float;
                            nms_threshold := 0.25%float;
                            input_width := 416; input_height := 416;
                            use_gpu := false; save_output := false;
                            show_preview := true; verbose := false;
                            real_time := true |};
               running := true;
               detections := replicate 20 zero_face;
               detection_count := 0;
               frame_count := 0;
               fps := 0%float |} in
  (((115 = 115 \/ 115 = 83) /\ (83 = 115 \/ 83 = 83))
   \/ ((115 = 118 \/ 115 = 86) /\ (83 = 118 \/ 83 = 86)))
  /\ (handle_key_input (handle_key_input (Some st) 115 []).1.2 83
        (handle_key_input (Some st) 115 []).2).1.2 = Some st.
Proof.
  intros st.
  assert (Hkeys : ((115 = 115 \/ 115 = 83) /\ (83 = 115 \/ 83 = 83))
                  \/ ((115 = 118 \/ 115 = 86) /\ (83 = 118 \/ 83 = 86)))
    by (left; split; [left | right]; reflexivity).
  exact (conj Hkeys (proj1 (toggle_key_twice_restores_state st 115 83 [] Hkeys))).
Defined.

(** ** The logging system *)

Lemma substring_prefix_length (n : nat) (s : string) :
  (String.length (String.substring 0 n s) <= n)%nat.
Proof.
  revert s. induction n as [| n IH]; intros s.
  - destruct s; simpl; lia.
  - destruct s as [| c s]; simpl; [lia |]. specialize (IH s). lia.
Qed.

(** X15: with the logging system initialised without a configuration
    ([init_logging_system(NULL)]) and no log file open, [log_debug]
    writes nothing, [log_info] and [log_warning] write one entry to
    [stdout] only, and [log_error] writes one entry to [stderr] only. *)
Theorem default_logging_routes :
  forall (g : Logging.globals) (fopen_ok : bool) (o : Logging.streams)
         (timestamp text : string),
    Logging.g_log_file g = None ->
    let g' := (Logging.init_logging_system None fopen_ok g o).1.2 in
    let message := String.substring 0 1023 text in
    Logging.log_debug timestamp text g' o = o
    /\ Logging.log_info timestamp text g' o
       = {| Logging.to_stdout :=
              Logging.to_stdout o ++ [Logging.Entry timestamp "INFO" message];
            Logging.to_stderr := Logging.to_stderr o;
            Logging.to_file := Logging.to_file o |}
    /\ Logging.log_warning timestamp text g' o
       = {| Logging.to_stdout :=
              Logging.to_stdout o ++ [Logging.Entry timestamp "WARN" message];
            Logging.to_stderr := Logging.to_stderr o;
            Logging.to_file := Logging.to_file o |}
    /\ Logging.log_error timestamp text g' o
       = {| Logging.to_stdout := Logging.to_stdout o;
            Logging.to_stderr :=
              Logging.to_stderr o ++ [Logging.Entry timestamp "ERROR" message];
            Logging.to_file := Logging.to_file o |}.
Proof.
  intros g fopen_ok o timestamp text Hfile g' message. subst g' message.
  unfold Logging.log_debug, Logging.log_info, Logging.log_warning,
    Logging.log_error, Logging.log_message, Logging.init_logging_system.
  simpl. rewrite Hfile. repeat split.
Qed.

Lemma default_logging_routes_witness :
  Logging.g_log_file Logging.initial_globals = None
  /\ Logging.log_debug "2024-01-01 12:00:00" "Detection status"
       (Logging.init_logging_system None true Logging.initial_globals
          Logging.no_output).1.2 Logging.no_output
     = Logging.no_output.
Proof.
  assert (Hfile : Logging.g_log_file Logging.initial_globals = None) by reflexivity.
  exact (conj Hfile
           (proj1 (default_logging_routes Logging.initial_globals true
                     Logging.no_output "2024-01-01 12:00:00" "Detection status"
                     Hfile))).
Defined.

Lemma log_message_fits_buffer (lvl : Logging.log_level_t) (timestamp text : string)
    (g : Logging.globals) (o : Logging.streams) :
  Logging.streams_fit_buffer o ->
  Logging.streams_fit_buffer (Logging.log_message lvl timestamp text g o).
Proof.
  intros (Hout & Herr & Hfile).
  assert (Hfit : (String.length (String.substring 0 1023 text) <= 1023)%nat)
    by apply substring_prefix_length.
  unfold Logging.log_message, Logging.streams_fit_buffer.
  case_decide; [repeat split; assumption |].
  destruct (Logging.g_console_logging g); [case_decide |];
    destruct (Logging.g_log_file g); simpl;
    repeat split; try assumption;
    (apply Forall_app; split; [assumption |]);
    apply Forall_singleton; exact Hfit.
Qed.

(** X16: no sequence of log calls, whatever their levels, formats and
    arguments, and whatever the logging globals, writes an entry whose
    message is longer than the 1023 characters of the buffer: a longer
    expansion is cut. *)
Theorem logged_messages_fit_buffer :
  forall (calls : list (Logging.log_level_t * string * string))
         (g : Logging.globals) (o : Logging.streams),
    Logging.streams_fit_buffer o ->
    Logging.streams_fit_buffer (Logging.log_all calls g o).
Proof.
  intros calls g. induction calls as [| c calls IH]; intros o Hfit; [exact Hfit |].
  unfold Logging.log_all. simpl fold_left. apply IH.
  apply log_message_fits_buffer. exact Hfit.
Qed.

Lemma logged_messages_fit_buffer_witness :
  Logging.streams_fit_buffer Logging.no_output
  /\ Logging.streams_fit_buffer
       (Logging.log_all
          [(Logging.LOG_LEVEL_INFO, "2024-01-01 12:00:00"%string,
            "Starting detection loop..."%string);
           (Logging.LOG_LEVEL_ERROR, "2024-01-01 12:00:01"%string,
            "Failed to capture frame from camera"%string)]
          Logging.initial_globals Logging.no_output).
Proof.
  assert (Hfit : Logging.streams_fit_buffer Logging.no_output)
    by (repeat split; constructor).
  exact (conj Hfit (logged_messages_fit_buffer _ Logging.initial_globals
                      Logging.no_output Hfit)).
Defined.

(** X17: the log file after a second initialisation.  After an
    initialisation that opened a log file, a second one keeps that file
    in use when it asks for no file output, names no path or has no
    configuration; it switches to the new file when it asks for one and
    [fopen] succeeds; and it ends file logging when it asks for one and
    [fopen] fails.  An entry at or above the threshold is appended to
    exactly the file in use, and after [cleanup_logging_system] no entry
    goes to a file. *)
Theorem file_logging_after_reinit :
  forall (c1 : Logging.logging_config_t) (cfg2 : option Logging.logging_config_t)
         (ok2 : bool) (g : Logging.globals) (o : Logging.streams)
         (lvl : Logging.log_level_t) (timestamp text : string),
    Logging.file_output c1 = true ->
    Logging.log_file c1 <> EmptyString ->
    let g1 := (Logging.init_logging_system (Some c1) true g o).1.2 in
    let g2 := (Logging.init_logging_system cfg2 ok2 g1 o).1.2 in
    Logging.level_to_int (Logging.g_log_level g2) <= Logging.level_to_int lvl ->
    let file2 :=
      match cfg2 with
      | Some c2 =>
          if Logging.file_output c2
             && negb (String.length (Logging.log_file c2) =? 0)%nat
          then (if ok2 then Some (Logging.log_file c2) else None)
          else Some (Logging.log_file c1)
      | None => Some (Logging.log_file c1)
      end in
    Logging.g_log_file g2 = file2
    /\ (exists l, Logging.to_file (Logging.log_message lvl timestamp text g2 o)
                  = Logging.to_file o
                    ++ match file2 with Some path => [(path, l)] | None => [] end)
    /\ Logging.to_file
         (Logging.log_message lvl timestamp text
            (Logging.cleanup_logging_system g2) o)
       = Logging.to_file o.
Proof.
  intros c1 cfg2 ok2 g o lvl timestamp text Hfile Hpath g1 g2 Hlevel file2.
  assert (Hg1 : Logging.g_log_file g1 = Some (Logging.log_file c1)).
  { subst g1. unfold Logging.init_logging_system. rewrite Hfile.
    destruct (Logging.log_file c1); [contradiction | reflexivity]. }
  assert (Hg2 : Logging.g_log_file g2 = file2).
  { subst g2 file2. unfold Logging.init_logging_system.
    destruct cfg2 as [c2 |]; [| exact Hg1].
    destruct (Logging.file_output c2
              && negb (String.length (Logging.log_file c2) =? 0)%nat);
      [destruct ok2; reflexivity | exact Hg1]. }
  assert (Hclean : Logging.g_log_file (Logging.cleanup_logging_system g2) = None
                   /\ Logging.g_log_level (Logging.cleanup_logging_system g2)
                      = Logging.g_log_level g2
                   /\ Logging.g_console_logging (Logging.cleanup_logging_system g2)
                      = Logging.g_console_logging g2).
  { unfold Logging.cleanup_logging_system.
    destruct (Logging.g_log_file g2) eqn:Hopen; repeat split; try assumption. }
  destruct Hclean as (Hc1 & Hc2 & Hc3).
  split; [exact Hg2 |].
  unfold Logging.log_message. rewrite Hg2, Hc1, Hc2, Hc3.
  case_decide; [lia |]. split.
  - eexists. destruct file2 as [path |];
      (destruct (Logging.g_console_logging g2); [case_decide |]);
      cbn [Logging.to_file]; rewrite ?app_nil_r; reflexivity.
  - destruct (Logging.g_console_logging g2); [case_decide |]; reflexivity.
Qed.

Lemma file_logging_after_reinit_witness :
  let c1 := {| Logging.level := Logging.LOG_LEVEL_INFO;
               Logging.log_file := "logs/face_mask_detector.log";
               Logging.console_output := true;
               Logging.file_output := true;
               Logging.timestamp_enabled := true;
               Logging.thread_id_enabled := false;
               Logging.max_file_size := 1048576;
               Logging.max_backup_files := 3 |} in
  let c2 := {| Logging.level := Logging.LOG_LEVEL_INFO;
               Logging.log_file := "logs/second.log";
               Logging.console_output := true;
               Logging.file_output := true;
               Logging.timestamp_enabled := true;
               Logging.thread_id_enabled := false;
               Logging.max_file_size := 1048576;
               Logging.max_backup_files := 3 |} in
  let g2 := (Logging.init_logging_system (Some c2) false
               (Logging.init_logging_system (Some c1) true Logging.initial_globals
                  Logging.no_output).1.2 Logging.no_output).1.2 in
  Logging.file_output c1 = true
  /\ Logging.log_file c1 <> EmptyString
  /\ Logging.g_log_file g2 = None.
Proof.
  intros c1 c2 g2.
  assert (Hfile : Logging.file_output c1 = true) by reflexivity.
  assert (Hpath : Logging.log_file c1 <> EmptyString) by discriminate.
  pose proof (proj1 (file_logging_after_reinit c1 (Some c2) false
                       Logging.initial_globals Logging.no_output
                       Logging.LOG_LEVEL_WARNING "2024-01-01 12:00:00"
                       "Mask classification model not loaded"
                       Hfile Hpath ltac:(simpl; lia))) as Hg2.
  exact (conj Hfile (conj Hpath Hg2)).
Defined.

(** ** The simple classifier *)

Lemma low_measure_decides (m : measurements) (cs : classifier_statics) :
  (saturation m <? 70)%float = true \/ (texture_std m <? 25)%float = true ->
  (simple_reliable_decision m cs).1 = MASK_STATUS_WITH_MASK.
Proof.
  intros Hlow.
  assert (Hmask : (indicators m).1 >= 3).
  { unfold indicators. destruct Hlow as [Hsat | Htex]; [rewrite Hsat | rewrite Htex];
      repeat match goal with
      | |- context [if ?b then _ else _] =>
          lazymatch type of b with bool => destruct b end
      end; cbn [fst snd]; lia. }
  unfold simple_reliable_decision. case_decide; [reflexivity | contradiction].
Qed.

(** X18: a mean saturation below 70, or a texture deviation below 25,
    decides alone: the face is classified [MASK_STATUS_WITH_MASK]
    whatever the other measurements are. *)
Theorem low_saturation_or_texture_means_mask :
  forall (m : measurements) (cs : classifier_statics),
    (saturation m <? 70)%float = true \/ (texture_std m <? 25)%float = true ->
    (simple_reliable_decision m cs).1 = MASK_STATUS_WITH_MASK.
Proof. intros m cs Hlow. apply low_measure_decides. exact Hlow. Qed.

Lemma low_saturation_or_texture_means_mask_witness :
  let m := {| hue := 12; saturation := 95; value := 120; texture_std := 18;
              brightness := 120; edge_ratio := 0 |} in
  ((saturation m <? 70)%float = true \/ (texture_std m <? 25)%float = true)
  /\ (simple_reliable_decision m (mk_classifier_statics 0 [])).1
     = MASK_STATUS_WITH_MASK.
Proof.
  intros m.
  assert (Hlow : (saturation m <? 70)%float = true \/ (texture_std m <? 25)%float = true)
    by (right; vm_compute; reflexivity).
  exact (conj Hlow (low_saturation_or_texture_means_mask m
                      (mk_classifier_statics 0 []) Hlow)).
Defined.

(** X19: past its guards the classifier always decides, and it leans
    towards a mask: the status is [MASK_STATUS_WITH_MASK] or
    [MASK_STATUS_WITHOUT_MASK], and it is [MASK_STATUS_WITHOUT_MASK] only
    when neither low saturation nor low texture was found and at least
    one of the three skin tests succeeded. *)
Theorem no_mask_verdict_needs_skin_evidence :
  forall (m : measurements) (cs : classifier_statics),
    ((simple_reliable_decision m cs).1 = MASK_STATUS_WITH_MASK
     \/ (simple_reliable_decision m cs).1 = MASK_STATUS_WITHOUT_MASK)
    /\ ((simple_reliable_decision m cs).1 = MASK_STATUS_WITHOUT_MASK ->
        (saturation m <? 70)%float = false
        /\ (texture_std m <? 25)%float = false
        /\ ((90 <? saturation m)%float = true
            \/ (35 <? texture_std m)%float = true
            \/ is_skin_hue m && (60 <? saturation m)%float
               && (80 <? value m)%float && (value m <? 180)%float = true)).
Proof.
  intros m cs. split.
  - unfold simple_reliable_decision. repeat case_decide; auto.
  - destruct ((saturation m <? 70)%float) eqn:Hsat.
    { rewrite low_measure_decides by (left; exact Hsat). discriminate. }
    destruct ((texture_std m <? 25)%float) eqn:Htex.
    { rewrite low_measure_decides by (right; exact Htex). discriminate. }
    intros Hverdict. split; [reflexivity |]. split; [reflexivity |].
    revert Hverdict. unfold simple_reliable_decision, indicators.
    rewrite Hsat, Htex.
    destruct ((90 <? saturation m)%float); [auto |].
    destruct ((35 <? texture_std m)%float); [auto |].
    destruct (is_skin_hue m && (60 <? saturation m)%float
              && (80 <? value m)%float && (value m <? 180)%float); [auto |].
    repeat match goal with
    | |- context [if ?b then _ else _] =>
        lazymatch type of b with bool => destruct b end
    end; cbn [fst snd]; repeat case_decide; try lia; discriminate.
Qed.

(** X20: the decision that the debug block logs is taken with other
    thresholds than the decision that is returned.  When the block is
    written (the counter reaches a multiple of 15) for a face with 3 mask
    indicators against at least 4 skin indicators, or with fewer than 3
    mask indicators and as many skin indicators, the log says NO-MASK
    while the function returns [MASK_STATUS_WITH_MASK]. *)
Theorem logged_decision_differs_from_result :
  forall (m : measurements) (cs : classifier_statics),
    Z.rem (wrap32 (debug_counter cs + 1)) 15 = 0 ->
    ((indicators m).1 = 3 /\ (indicators m).2 >= 4)
    \/ ((indicators m).1 < 3 /\ (indicators m).2 = (indicators m).1) ->
    (simple_reliable_decision m cs).1 = MASK_STATUS_WITH_MASK
    /\ (In (mk_fmt "DECISION: NO-MASK (strong skin indicators >= 4)" [])
           (classifier_lines (simple_reliable_decision m cs).2)
        \/ In (mk_fmt "DECISION: NO-MASK (advantage %d >= %d)"
                 [FmtInt (indicators m).2; FmtInt (indicators m).1])
             (classifier_lines (simple_reliable_decision m cs).2)).
Proof.
  intros m cs Hcounter Hscores.
  unfold simple_reliable_decision, simple_debug_lines.
  set (mask_indicators := (indicators m).1) in *.
  set (skin_indicators := (indicators m).2) in *.
  destruct (decide (Z.rem (wrap32 (debug_counter cs + 1)) 15 = 0)) as [_ | Hno];
    [| contradiction].
  repeat case_decide; cbn [fst snd classifier_lines]; try (exfalso; lia);
    (split; [reflexivity |]); rewrite !in_app_iff; simpl; auto 12.
Qed.

Lemma logged_decision_differs_from_result_witness :
  let m := {| hue := 12; saturation := 95; value := 120; texture_std := 18;
              brightness := 120; edge_ratio := 0 |} in
  let cs := mk_classifier_statics 14 [] in
  Z.rem (wrap32 (debug_counter cs + 1)) 15 = 0
  /\ (indicators m).1 = 3
  /\ (indicators m).2 >= 4
  /\ (simple_reliable_decision m cs).1 = MASK_STATUS_WITH_MASK.
Proof.
  intros m cs.
  assert (Hcounter : Z.rem (wrap32 (debug_counter cs + 1)) 15 = 0)
    by (vm_compute; reflexivity).
  assert (Hmask : (indicators m).1 = 3) by (vm_compute; reflexivity).
  assert (Hskin : (indicators m).2 >= 4) by (vm_compute; discriminate).
  exact (conj Hcounter (conj Hmask (conj Hskin
           (proj1 (logged_decision_differs_from_result m cs Hcounter
                     (or_introl (conj Hmask Hskin))))))).
Defined.

(** ** Drawing *)

Lemma draw_faces_length (get_text_size : draw_text -> text_extent)
    (fs : list face_detection_t) :
  length (concat (map (draw_face get_text_size) fs)) = (3 * length fs)%nat.
Proof.
  induction fs as [| f fs IH]; [reflexivity |].
  cbn [map concat]. rewrite length_app, IH. simpl length. lia.
Qed.

(** X21: [draw_detections] draws nothing when the frame is empty, [faces]
    is null or [count] is not positive.  Otherwise it makes three drawing
    calls per face (box, label background, label text) for the first
    [count] faces and ends with the text "Faces: count" at (10, 30). *)
Theorem draw_detections_commands :
  forall (get_text_size : draw_text -> text_extent) (frame_is_empty : bool)
         (faces : option (list face_detection_t)) (count : Z),
    (frame_is_empty = true \/ faces = None \/ count <= 0 ->
     draw_detections get_text_size frame_is_empty faces count = [])
    /\ (forall fs, frame_is_empty = false -> faces = Some fs ->
          0 < count <= Z.of_nat (length fs) ->
          Z.of_nat (length (draw_detections get_text_size frame_is_empty faces count))
          = 3 * count + 1
          /\ last (draw_detections get_text_size frame_is_empty faces count)
             = Some (Put_text (Info_text count) 10 30 0x1.999999999999ap-1%float
                       (255, 255, 255) 2)).
Proof.
  intros get_text_size frame_is_empty faces count. split.
  - intros Hbad. unfold draw_detections.
    destruct faces as [fs |]; [| reflexivity].
    destruct frame_is_empty; [reflexivity |]. simpl.
    case_bool_decide; [reflexivity |].
    destruct Hbad as [Hb | [Hb | Hb]]; (discriminate || lia).
  - intros fs Hframe Hfaces Hcount. subst faces frame_is_empty.
    unfold draw_detections. simpl orb. case_bool_decide; [lia |]. split.
    + rewrite length_app, draw_faces_length, length_take. simpl length. lia.
    + apply last_snoc.
Qed.

(** X22: the label of a face never sticks out above the frame.  For a
    text of non-negative height and a box whose lower edge is not more
    than 5 pixels above the frame, the origin of the label is at least
    the text height below the top of the frame: it is 10 pixels above the
    box when the text fits there, and below the box otherwise. *)
Theorem label_stays_below_frame_top :
  forall (face : face_detection_t) (size : text_extent),
    0 <= text_height size <= 1000000 ->
    -1000000 <= y face <= 1000000 ->
    0 <= height face <= 1000000 ->
    -5 <= y face + height face ->
    let pos := label_pos face size in
    pos.1 = x face
    /\ text_height size <= pos.2
    /\ ((pos.2 = y face - 10 /\ text_height size <= y face - 10)
        \/ (pos.2 = y face + height face + text_height size + 5
            /\ y face - 10 < text_height size)).
Proof.
  intros face size Hth Hy Hh Hlow pos. subst pos. unfold label_pos.
  rewrite (wrap32_small (y face - 10)) by lia.
  rewrite (wrap32_small (y face + height face)) by lia.
  rewrite (wrap32_small (y face + height face + text_height size)) by lia.
  rewrite (wrap32_small (y face + height face + text_height size + 5)) by lia.
  case_decide; cbn [fst snd]; (split; [reflexivity |]); split; lia.
Qed.

Lemma label_stays_below_frame_top_witness :
  let face := set_rect (mk_rect 40 12 80 90) zero_face in
  let size := mk_extent 110 18 6 in
  0 <= text_height size <= 1000000
  /\ -5 <= y face + height face
  /\ label_pos face size = (40, 125).
Proof.
  intros face size.
  assert (Hth : 0 <= text_height size <= 1000000) by (simpl; lia).
  assert (Hlow : -5 <= y face + height face) by (simpl; lia).
  destruct (label_stays_below_frame_top face size Hth ltac:(simpl; lia)
              ltac:(simpl; lia) Hlow) as (H1 & _ & [[H2 Hfit] | [H2 _]]).
  - exfalso. simpl in Hfit. lia.
  - refine (conj Hth (conj Hlow _)).
    rewrite (surjective_pairing (label_pos face size)), H1, H2. reflexivity.
Defined.

(** ** Constant input *)

(** One call with the status the face was seeded with, under no lock or a
    lock on that status. *)
Lemma seeded_status_step (f : face_detection_t) (r : mask_status_t) (s : statics) :
  history_count f <> 0 ->
  stable_status f = r ->
  current_locked_status s = MASK_STATUS_UNKNOWN \/ current_locked_status s = r ->
  let out := apply_temporal_smoothing (Some f) r s in
  returned out = r
  /\ (current_locked_status (statics_after out) = MASK_STATUS_UNKNOWN
      \/ current_locked_status (statics_after out) = r).
Proof.
  intros Hseeded Hstable Hlock out. subst out.
  rewrite (later_call f r s Hseeded).
  destruct (count_consecutive_lock r s) as [Hcl _].
  set (s1 := count_consecutive r s) in *.
  rewrite <- Hcl in Hlock.
  set (s2 := set_remaining (wrap32 (lock_frames_remaining s1 - 1)) s1).
  destruct (debug_output_lock r s1) as (Hd1 & _).
  destruct (debug_output_lock r s2) as (Hd2 & _).
  unfold locking_logic, fallback, returned, statics_after.
  repeat case_decide; fold s2; cbn [fst snd]; rewrite ?Hd1, ?Hd2; simpl;
    repeat match goal with H : _ /\ _ |- _ => destruct H end;
    split; first [congruence | tauto | destruct Hlock; congruence
                 | destruct Hlock; [left | right]; congruence].
Qed.

Lemma seeded_status_forever (r : mask_status_t) (n : nat) :
  forall (f : face_detection_t) (s : statics),
    history_count f <> 0 ->
    stable_status f = r ->
    current_locked_status s = MASK_STATUS_UNKNOWN \/ current_locked_status s = r ->
    returned (feed (replicate n r) (Some f) s) = replicate n r.
Proof.
  induction n as [| n IH]; intros f s Hseeded Hstable Hlock; [reflexivity |].
  cbn [replicate]. rewrite feed_cons.
  destruct (seeded_status_step f r s Hseeded Hstable Hlock) as [Hret Hlock'].
  rewrite (later_call_face f r s Hseeded).
  unfold returned at 1. cbn [fst]. fold (returned (apply_temporal_smoothing (Some f) r s)).
  rewrite Hret. f_equal. apply IH; assumption.
Qed.

(** X23: a face that brings the same raw status from its very first call
    on is reported with that status at every call, however many there
    are: for a fresh face record and static locals with no lock (or a
    lock on that status), every call of the sequence returns the raw
    status. *)
Theorem constant_input_from_first_call :
  forall (r : mask_status_t) (n : nat) (f : face_detection_t) (s : statics),
    history_count f = 0 ->
    current_locked_status s = MASK_STATUS_UNKNOWN \/ current_locked_status s = r ->
    returned (feed (replicate n r) (Some f) s) = replicate n r.
Proof.
  intros r n f s Hfresh Hlock. destruct n as [| n]; [reflexivity |].
  cbn [replicate]. rewrite feed_cons, (first_call f r s Hfresh).
  unfold returned at 1, face_after, statics_after. cbn [fst snd]. f_equal.
  apply seeded_status_forever; [simpl; lia | reflexivity | exact Hlock].
Qed.

Lemma constant_input_from_first_call_witness :
  history_count zero_face = 0
  /\ (current_locked_status initial_statics = MASK_STATUS_UNKNOWN
      \/ current_locked_status initial_statics = MASK_STATUS_WITH_MASK)
  /\ returned (feed (replicate 200 MASK_STATUS_WITH_MASK) (Some zero_face)
                 initial_statics)
     = replicate 200 MASK_STATUS_WITH_MASK.
Proof.
  assert (Hfresh : history_count zero_face = 0) by reflexivity.
  assert (Hlock : current_locked_status initial_statics = MASK_STATUS_UNKNOWN
                  \/ current_locked_status initial_statics = MASK_STATUS_WITH_MASK)
    by (left; reflexivity).
  exact (conj Hfresh (conj Hlock
           (constant_input_from_first_call MASK_STATUS_WITH_MASK 200 zero_face
              initial_statics Hfresh Hlock))).
Defined.

(** ** Taking the mask off *)

(** One [MASK_STATUS_WITHOUT_MASK] call under a running lock on
    [MASK_STATUS_WITH_MASK]: held below a streak of 8, switched from 8
    on. *)
Lemma without_mask_step (f : face_detection_t) (s : statics) :
  history_count f <> 0 ->
  current_locked_status s = MASK_STATUS_WITH_MASK ->
  1 < lock_frames_remaining s <= 2147483647 ->
  let out := apply_temporal_smoothing (Some f) MASK_STATUS_WITHOUT_MASK s in
  let streak := streak_after MASK_STATUS_WITHOUT_MASK s in
  previous_result (statics_after out) = MASK_STATUS_WITHOUT_MASK
  /\ same_result_count (statics_after out) = streak
  /\ (streak < 8 ->
      returned out = MASK_STATUS_WITH_MASK
      /\ current_locked_status (statics_after out) = MASK_STATUS_WITH_MASK
      /\ lock_frames_remaining (statics_after out) = lock_frames_remaining s - 1)
  /\ (streak >= 8 ->
      returned out = MASK_STATUS_WITHOUT_MASK
      /\ current_locked_status (statics_after out) = MASK_STATUS_WITHOUT_MASK
      /\ lock_frames_remaining (statics_after out) = 60).
Proof.
  intros Hseeded Hlocked Hrem out streak. subst out streak.
  assert (Hdec : wrap32 (lock_frames_remaining s - 1) = lock_frames_remaining s - 1)
    by (apply wrap32_small; lia).
  rewrite (later_call f _ s Hseeded).
  destruct (count_consecutive_lock MASK_STATUS_WITHOUT_MASK s) as [Hlock Hcr].
  pose proof (count_consecutive_previous MASK_STATUS_WITHOUT_MASK s) as Hprev.
  unfold streak_after.
  set (s1 := count_consecutive MASK_STATUS_WITHOUT_MASK s) in *.
  rewrite <- Hcr in *. rewrite <- Hlock in *.
  locking_cases; rewrite ?Hdec in *;
    repeat split; first [assumption | congruence | lia | intros; exfalso; lia
                        | intros; exfalso; congruence
                        | intros; repeat split; first [congruence | lia]
                        | intros;
                          match goal with
                          | H : ~ _ |- _ =>
                              solve [exfalso; apply H; repeat split;
                                     (congruence || lia)]
                          end ].
Qed.

Lemma fast_exit_after_streak (j : nat) :
  forall (f : face_detection_t) (s : statics),
    history_count f <> 0 ->
    current_locked_status s = MASK_STATUS_WITH_MASK ->
    previous_result s = MASK_STATUS_WITHOUT_MASK ->
    same_result_count s = 7 - Z.of_nat j ->
    1 + Z.of_nat j < lock_frames_remaining s <= 2147483647 ->
    let out := feed (replicate (S j) MASK_STATUS_WITHOUT_MASK) (Some f) s in
    returned out = replicate j MASK_STATUS_WITH_MASK ++ [MASK_STATUS_WITHOUT_MASK]
    /\ current_locked_status (statics_after out) = MASK_STATUS_WITHOUT_MASK
    /\ lock_frames_remaining (statics_after out) = 60.
Proof.
  induction j as [| j IH]; intros f s Hseeded Hlocked Hprev Hcount Hrem out;
    subst out; cbn [replicate]; rewrite feed_cons;
    destruct (without_mask_step f s Hseeded Hlocked ltac:(lia))
      as (Hprev' & Hcount' & Hhold & Hswitch);
    assert (Hstreak : streak_after MASK_STATUS_WITHOUT_MASK s = same_result_count s + 1)
      by (unfold streak_after, count_consecutive;
          destruct (decide (MASK_STATUS_WITHOUT_MASK = previous_result s));
          [simpl; apply wrap32_small; lia | congruence]);
    rewrite (later_call_face f _ s Hseeded).
  - destruct Hswitch as (Hret & Hlock' & Hrem'); [lia |].
    unfold returned, face_after, statics_after in *. cbn [feed fst snd].
    rewrite Hret, Hlock', Hrem'. repeat split.
  - destruct Hhold as (Hret & Hlock' & Hrem'); [lia |].
    destruct (IH f (statics_after (apply_temporal_smoothing (Some f)
                                     MASK_STATUS_WITHOUT_MASK s)))
      as (IHret & IHlock & IHrem); try assumption; [lia | lia |].
    unfold returned, face_after, statics_after in *. cbn [fst snd].
    rewrite Hret. cbn [replicate app].
    split; [f_equal; exact IHret | split; assumption].
Qed.

(** X24: taking the mask off.  Under a lock on [MASK_STATUS_WITH_MASK]
    with more than 8 frames left, eight consecutive raw
    [MASK_STATUS_WITHOUT_MASK] (after a different previous raw status)
    are answered seven times with [MASK_STATUS_WITH_MASK] and the eighth
    time with [MASK_STATUS_WITHOUT_MASK], which is then the lock, with a
    countdown of 60. *)
Theorem mask_removal_switches_on_eighth_frame :
  forall (f : face_detection_t) (s : statics),
    history_count f <> 0 ->
    current_locked_status s = MASK_STATUS_WITH_MASK ->
    previous_result s <> MASK_STATUS_WITHOUT_MASK ->
    8 < lock_frames_remaining s <= 2147483647 ->
    let out := feed (replicate 8 MASK_STATUS_WITHOUT_MASK) (Some f) s in
    returned out = replicate 7 MASK_STATUS_WITH_MASK ++ [MASK_STATUS_WITHOUT_MASK]
    /\ current_locked_status (statics_after out) = MASK_STATUS_WITHOUT_MASK
    /\ lock_frames_remaining (statics_after out) = 60.
Proof.
  intros f s Hseeded Hlocked Hprev Hrem out. subst out.
  change (replicate 8 MASK_STATUS_WITHOUT_MASK)
    with (MASK_STATUS_WITHOUT_MASK :: replicate 7 MASK_STATUS_WITHOUT_MASK).
  rewrite feed_cons.
  destruct (without_mask_step f s Hseeded Hlocked ltac:(lia))
    as (Hprev' & Hcount' & Hhold & _).
  assert (Hstreak : streak_after MASK_STATUS_WITHOUT_MASK s = 1)
    by (apply streak_restarts; congruence).
  rewrite Hstreak in *.
  destruct Hhold as (Hret & Hlock' & Hrem'); [lia |].
  rewrite (later_call_face f _ s Hseeded).
  destruct (fast_exit_after_streak 6 f
              (statics_after (apply_temporal_smoothing (Some f)
                                MASK_STATUS_WITHOUT_MASK s)))
    as (IHret & IHlock & IHrem); try assumption;
    [rewrite Hrem'; change (Z.of_nat 6) with 6; lia |].
  unfold returned, face_after, statics_after in *. cbn [fst snd].
  rewrite Hret. split; [| split; assumption].
  change (replicate 7 MASK_STATUS_WITH_MASK)
    with (MASK_STATUS_WITH_MASK :: replicate 6 MASK_STATUS_WITH_MASK).
  cbn [app]. f_equal. exact IHret.
Qed.

Lemma mask_removal_switches_on_eighth_frame_witness :
  let f := init_history MASK_STATUS_WITH_MASK zero_face in
  let s := {| current_locked_status := MASK_STATUS_WITH_MASK;
              lock_frames_remaining := 90;
              same_result_count := 5;
              previous_result := MASK_STATUS_WITH_MASK;
              debug_frame_count := 0;
              log_output := [] |} in
  history_count f <> 0
  /\ current_locked_status s = MASK_STATUS_WITH_MASK
  /\ previous_result s <> MASK_STATUS_WITHOUT_MASK
  /\ 8 < lock_frames_remaining s <= 2147483647
  /\ lock_frames_remaining
       (statics_after (feed (replicate 8 MASK_STATUS_WITHOUT_MASK) (Some f) s))
     = 60.
Proof.
  intros f s.
  assert (Hseeded : history_count f <> 0) by (vm_compute; discriminate).
  assert (Hlocked : current_locked_status s = MASK_STATUS_WITH_MASK) by reflexivity.
  assert (Hprev : previous_result s <> MASK_STATUS_WITHOUT_MASK)
    by (simpl; discriminate).
  assert (Hrem : 8 < lock_frames_remaining s <= 2147483647) by (simpl; lia).
  destruct (mask_removal_switches_on_eighth_frame f s Hseeded Hlocked Hprev Hrem)
    as (_ & _ & Hcountdown).
  exact (conj Hseeded (conj Hlocked (conj Hprev (conj Hrem Hcountdown)))).
Defined.

(** ** Establishing the lock *)

(** One call without a lock: the fallback below a streak of 5, the lock
    from 5 on. *)
Lemma unlocked_step (f : face_detection_t) (r : mask_status_t) (s : statics) :
  history_count f <> 0 ->
  current_locked_status s = MASK_STATUS_UNKNOWN ->
  let out := apply_temporal_smoothing (Some f) r s in
  let streak := streak_after r s in
  previous_result (statics_after out) = r
  /\ same_result_count (statics_after out) = streak
  /\ (streak < 5 ->
      returned out
      = (if decide (stable_status f <> MASK_STATUS_UNKNOWN) then stable_status f else r)
      /\ current_locked_status (statics_after out) = MASK_STATUS_UNKNOWN)
  /\ (streak >= 5 ->
      returned out = r
      /\ current_locked_status (statics_after out) = r
      /\ lock_frames_remaining (statics_after out) = lock_duration r).
Proof.
  intros Hseeded Hnolock out streak. subst out streak.
  rewrite (later_call f r s Hseeded).
  destruct (count_consecutive_lock r s) as [Hlock _].
  pose proof (count_consecutive_previous r s) as Hprev.
  unfold streak_after.
  set (s1 := count_consecutive r s) in *.
  rewrite <- Hlock in *.
  destruct (debug_output_lock r s1) as (Hd1 & _ & Hd3 & Hd4).
  unfold locking_logic, fallback, returned, statics_after.
  repeat case_decide; cbn [fst snd]; rewrite ?Hd1, ?Hd3, ?Hd4; simpl;
    try congruence;
    repeat split; first [assumption | congruence | lia | intros; exfalso; lia
                        | intros; repeat split; congruence ].
Qed.

Lemma lock_after_streak (j : nat) :
  forall (f : face_detection_t) (r : mask_status_t) (s : statics),
    history_count f <> 0 ->
    current_locked_status s = MASK_STATUS_UNKNOWN ->
    previous_result s = r ->
    same_result_count s = 4 - Z.of_nat j ->
    (j <= 4)%nat ->
    let out := feed (replicate (S j) r) (Some f) s in
    returned out
    = replicate j (if decide (stable_status f <> MASK_STATUS_UNKNOWN)
                   then stable_status f else r) ++ [r]
    /\ current_locked_status (statics_after out) = r
    /\ lock_frames_remaining (statics_after out) = lock_duration r.
Proof.
  induction j as [| j IH]; intros f r s Hseeded Hnolock Hprev Hcount Hj out;
    subst out; cbn [replicate]; rewrite feed_cons;
    destruct (unlocked_step f r s Hseeded Hnolock)
      as (Hprev' & Hcount' & Hfall & Hlock);
    assert (Hstreak : streak_after r s = same_result_count s + 1)
      by (unfold streak_after, count_consecutive;
          destruct (decide (r = previous_result s));
          [simpl; apply wrap32_small; lia | congruence]);
    rewrite (later_call_face f r s Hseeded).
  - destruct Hlock as (Hret & Hlock' & Hrem'); [lia |].
    unfold returned, face_after, statics_after in *. cbn [feed fst snd].
    rewrite Hret, Hlock', Hrem'. repeat split.
  - destruct Hfall as (Hret & Hlock'); [lia |].
    destruct (IH f r (statics_after (apply_temporal_smoothing (Some f) r s)))
      as (IHret & IHlock & IHrem); try assumption; [lia | lia |].
    unfold returned, face_after, statics_after in *. cbn [fst snd].
    rewrite Hret. cbn [replicate app].
    split; [f_equal; exact IHret | split; assumption].
Qed.

(** X25: establishing a lock takes five equal frames, and until then the
    face is reported with its stable status.  For a seeded face with no
    lock, five consecutive raw statuses [r] after a different previous
    raw status are answered four times with the stable status of the face
    ([r] itself if that is [MASK_STATUS_UNKNOWN]) and the fifth time with
    [r], which is then the lock, with a countdown of 90 for
    [MASK_STATUS_WITH_MASK] and 60 otherwise. *)
Theorem lock_established_on_fifth_frame :
  forall (f : face_detection_t) (r : mask_status_t) (s : statics),
    history_count f <> 0 ->
    current_locked_status s = MASK_STATUS_UNKNOWN ->
    previous_result s <> r ->
    let out := feed (replicate 5 r) (Some f) s in
    returned out
    = replicate 4 (if decide (stable_status f <> MASK_STATUS_UNKNOWN)
                   then stable_status f else r) ++ [r]
    /\ current_locked_status (statics_after out) = r
    /\ lock_frames_remaining (statics_after out)
       = (if decide (r = MASK_STATUS_WITH_MASK) then 90 else 60).
Proof.
  intros f r s Hseeded Hnolock Hprev out. subst out.
  change (replicate 5 r) with (r :: replicate 4 r).
  rewrite feed_cons.
  destruct (unlocked_step f r s Hseeded Hnolock) as (Hprev' & Hcount' & Hfall & _).
  assert (Hstreak : streak_after r s = 1) by (apply streak_restarts; congruence).
  rewrite Hstreak in *.
  destruct Hfall as (Hret & Hlock'); [lia |].
  rewrite (later_call_face f r s Hseeded).
  destruct (lock_after_streak 3 f r
              (statics_after (apply_temporal_smoothing (Some f) r s)))
    as (IHret & IHlock & IHrem); try assumption; [lia |].
  unfold returned, face_after, statics_after in *. cbn [fst snd].
  rewrite Hret. split; [| split; assumption].
  change (replicate 4 (if decide (stable_status f <> MASK_STATUS_UNKNOWN)
                       then stable_status f else r))
    with ((if decide (stable_status f <> MASK_STATUS_UNKNOWN)
           then stable_status f else r)
          :: replicate 3 (if decide (stable_status f <> MASK_STATUS_UNKNOWN)
                          then stable_status f else r)).
  cbn [app]. f_equal. exact IHret.
Qed.

Lemma lock_established_on_fifth_frame_witness :
  let f := init_history MASK_STATUS_WITHOUT_MASK zero_face in
  history_count f <> 0
  /\ current_locked_status initial_statics = MASK_STATUS_UNKNOWN
  /\ previous_result initial_statics <> MASK_STATUS_WITH_MASK
  /\ returned (feed (replicate 5 MASK_STATUS_WITH_MASK) (Some f) initial_statics)
     = replicate 4 MASK_STATUS_WITHOUT_MASK ++ [MASK_STATUS_WITH_MASK].
Proof.
  intros f.
  assert (Hseeded : history_count f <> 0) by (vm_compute; discriminate).
  assert (Hnolock : current_locked_status initial_statics = MASK_STATUS_UNKNOWN)
    by reflexivity.
  assert (Hprev : previous_result initial_statics <> MASK_STATUS_WITH_MASK)
    by (simpl; discriminate).
  exact (conj Hseeded (conj Hnolock (conj Hprev
           (proj1 (lock_established_on_fifth_frame f MASK_STATUS_WITH_MASK
                     initial_statics Hseeded Hnolock Hprev))))).
Defined.

(** ** The first frame *)

Lemma detect_one_fresh (frame : frame_t) (i : nat) (r : rect_t)
    (f : face_detection_t) (s : statics) :
  history_count f = 0 ->
  let c := classify frame i r in
  (detect_one frame i r f s).1
  = set_mask (raw_mask_status c) (raw_mask_confidence c)
      (init_history (raw_mask_status c) (set_rect r f))
  /\ (detect_one frame i r f s).2 = log_lines (classifier_log c) s.
Proof.
  intros Hfresh c. subst c. unfold detect_one. cbv zeta.
  rewrite first_call by exact Hfresh. split; reflexivity.
Qed.

Lemma detect_loop_fresh (n : nat) :
  forall (i : nat) (frame : frame_t) (rects : list rect_t)
         (faces : list face_detection_t) (s : statics),
    (i + n <= length rects)%nat ->
    (forall j, (i <= j < i + n)%nat ->
               exists f, faces !! j = Some f /\ history_count f = 0) ->
    let out := detect_loop n i frame rects faces s in
    (forall j, (i <= j < i + n)%nat ->
       exists r f', rects !! j = Some r /\ out.1 !! j = Some f'
         /\ mask_status f' = raw_mask_status (classify frame j r)
         /\ stable_status f' = raw_mask_status (classify frame j r)
         /\ history_count f' = 1)
    /\ current_locked_status out.2 = current_locked_status s
    /\ lock_frames_remaining out.2 = lock_frames_remaining s
    /\ same_result_count out.2 = same_result_count s
    /\ previous_result out.2 = previous_result s.
Proof.
  induction n as [| n IH]; intros i frame rects faces s Hlen Hfresh out.
  - subst out. simpl. split; [intros j Hj; lia | repeat split].
  - subst out. cbn [detect_loop].
    destruct (lookup_lt_is_Some_2 rects i ltac:(lia)) as [r Hr].
    destruct (Hfresh i ltac:(lia)) as (f & Hf & Hcount).
    rewrite Hr, Hf. cbv zeta.
    destruct (detect_one_fresh frame i r f s Hcount) as [Hone Htwo].
    destruct (log_lines_fields (classifier_log (classify frame i r)) s)
      as (Hl1 & Hl2 & Hl3 & Hl4 & _).
    set (fs1 := detect_one frame i r f s) in *.
    destruct (IH (S i) frame rects (<[i := fs1.1]> faces) fs1.2)
      as (IHslots & IHlock & IHrem & IHcount & IHprev).
    + lia.
    + intros j Hj. rewrite list_lookup_insert_ne by lia. apply Hfresh. lia.
    + rewrite Htwo, Hl1, Hl2, Hl3, Hl4 in *.
      split; [| repeat split; assumption].
      intros j Hj. destruct (decide (j = i)) as [-> | Hne].
      * exists r, fs1.1. split; [exact Hr |]. split.
        { rewrite detect_loop_outside by lia.
          apply list_lookup_insert_eq. eapply lookup_lt_Some; exact Hf. }
        rewrite Hone. repeat split.
      * apply IHslots. lia.
Qed.

(** X26: the first frame is not smoothed and does not count.  When every
    slot that [detect_faces] visits is fresh, each of these faces is
    reported with its own raw classification, which also becomes its
    stable status, and the lock, its countdown, the streak and the
    previous result are left as they were: the seeding call of a face
    takes no part in the streak. *)
Theorem first_frame_reports_raw_status :
  forall (frame : frame_t) (rects : list rect_t) (fs : list face_detection_t)
         (max_faces : Z) (ds : detect_statics),
    frame_empty frame = false ->
    face_rects frame = Some rects ->
    0 < max_faces ->
    Z.of_nat (length rects) <= 2147483647 ->
    let count := Z.to_nat (Z.min (Z.of_nat (length rects)) max_faces) in
    (forall j, (j < count)%nat -> exists f, fs !! j = Some f /\ history_count f = 0) ->
    let out := detect_faces false frame (Some fs) max_faces ds in
    (exists fs', out.1.2 = Some fs'
       /\ forall j, (j < count)%nat ->
            exists r f', rects !! j = Some r /\ fs' !! j = Some f'
              /\ mask_status f' = raw_mask_status (classify frame j r)
              /\ stable_status f' = raw_mask_status (classify frame j r)
              /\ history_count f' = 1)
    /\ current_locked_status (smoothing out.2) = current_locked_status (smoothing ds)
    /\ lock_frames_remaining (smoothing out.2) = lock_frames_remaining (smoothing ds)
    /\ same_result_count (smoothing out.2) = same_result_count (smoothing ds)
    /\ previous_result (smoothing out.2) = previous_result (smoothing ds).
Proof.
  intros frame rects fs max_faces ds Hframe Hrects Hmax Hlen count Hfresh out.
  subst out. unfold detect_faces. rewrite Hframe, Hrects. simpl orb.
  case_bool_decide; [lia |]. cbv zeta. cbn [fst snd smoothing].
  assert (Hdbg : current_locked_status (smoothing (face_debug rects max_faces ds))
                 = current_locked_status (smoothing ds)
                 /\ lock_frames_remaining (smoothing (face_debug rects max_faces ds))
                    = lock_frames_remaining (smoothing ds)
                 /\ same_result_count (smoothing (face_debug rects max_faces ds))
                    = same_result_count (smoothing ds)
                 /\ previous_result (smoothing (face_debug rects max_faces ds))
                    = previous_result (smoothing ds)).
  { unfold face_debug. case_decide; simpl; [| repeat split].
    destruct (log_lines_fields (face_debug_lines rects max_faces) (smoothing ds))
      as (H1 & H2 & H3 & H4 & _). repeat split; assumption. }
  destruct Hdbg as (Hd1 & Hd2 & Hd3 & Hd4).
  assert (Hcount : Z.to_nat (Z.min (wrap32 (Z.of_nat (length rects))) max_faces) = count)
    by (subst count; rewrite wrap32_small by lia; reflexivity).
  rewrite Hcount.
  destruct (detect_loop_fresh count 0 frame rects fs
              (smoothing (face_debug rects max_faces ds)))
    as (Hslots & Hlock' & Hrem' & Hcount' & Hprev').
  - subst count. lia.
  - intros j Hj. apply Hfresh. lia.
  - rewrite Hd1, Hd2, Hd3, Hd4 in *. split; [| repeat split; assumption].
    eexists. split; [reflexivity |]. intros j Hj. apply Hslots. lia.
Qed.

Lemma first_frame_reports_raw_status_witness :
  let frame := {| frame_empty := false;
                  face_rects := Some [mk_rect 10 10 50 50; mk_rect 80 20 40 40];
                  exception_what := "";
                  classify := fun i _ =>
                    mk_classification
                      (if decide (i = 0%nat) then MASK_STATUS_WITH_MASK
                       else MASK_STATUS_WITHOUT_MASK) 1%float [] |} in
  let fs := replicate 20 zero_face in
  frame_empty frame = false
  /\ 0 < 20
  /\ same_result_count
       (smoothing (detect_faces false frame (Some fs) 20 initial_detect_statics).2)
     = 0.
Proof.
  intros frame fs.
  assert (Hframe : frame_empty frame = false) by reflexivity.
  assert (Hmax : 0 < 20) by lia.
  assert (Hfresh : forall j, (j < 2)%nat ->
                     exists f, fs !! j = Some f /\ history_count f = 0).
  { intros j Hj. destruct j as [| [| j]]; [| | lia];
      exists zero_face; split; reflexivity. }
  pose proof (first_frame_reports_raw_status frame _ fs 20 initial_detect_statics
                Hframe eq_refl Hmax ltac:(simpl; lia) Hfresh)
    as (_ & _ & _ & Hstreak & _).
  exact (conj Hframe (conj Hmax Hstreak)).
Defined.

(** ** Signed overflow of the counters *)

Lemma int_result_in (z : Z) :
  -2147483648 <= z <= 2147483647 -> int_result z = Some z.
Proof.
  intros Hz. unfold int_result, in_int. case_decide; [reflexivity | contradiction].
Qed.

Lemma int_result_out (z : Z) : 2147483647 < z -> int_result z = None.
Proof.
  intros Hz. unfold int_result, in_int. case_decide; [lia | reflexivity].
Qed.

(** Where the counters are far enough from the limits of [int], the call
    is defined under the C rule and is the call of the embedding with
    wrap-around. *)
Lemma strict_call_when_bounded (face : option face_detection_t)
    (r : mask_status_t) (k : Z) (s : statics) :
  k < 2147483647 ->
  counters_bounded k s ->
  apply_temporal_smoothing_strict face r s = Some (apply_temporal_smoothing face r s).
Proof.
  intros Hk (Hcount & Hrem & Hdebug).
  unfold apply_temporal_smoothing_strict, apply_temporal_smoothing.
  destruct face as [f |]; [| reflexivity].
  destruct (decide (history_count f = 0)) as [_ | _]; [reflexivity |].
  assert (Hcc : count_consecutive_strict r s = Some (count_consecutive r s)).
  { unfold count_consecutive_strict, count_consecutive.
    case_decide; [| reflexivity].
    rewrite int_result_in, wrap32_small by lia. reflexivity. }
  rewrite Hcc.
  assert (Hs1 : lock_frames_remaining (count_consecutive r s) = lock_frames_remaining s
                /\ debug_frame_count (count_consecutive r s) = debug_frame_count s)
    by (unfold count_consecutive; case_decide; split; reflexivity).
  destruct Hs1 as [Hrem1 Hdebug1].
  set (s1 := count_consecutive r s) in *.
  assert (Hdbg : forall s0, debug_frame_count s0 = debug_frame_count s ->
                   debug_output_strict r s0 = Some (debug_output r s0)).
  { intros s0 Hd. unfold debug_output_strict, debug_output.
    rewrite int_result_in, wrap32_small by lia.
    repeat case_decide; reflexivity. }
  assert (Hfall : forall s0, debug_frame_count s0 = debug_frame_count s ->
                    fallback_strict f r s0 = Some (fallback f r s0)).
  { intros s0 Hd. unfold fallback_strict, fallback. rewrite (Hdbg s0 Hd).
    case_decide; reflexivity. }
  unfold locking_logic_strict, locking_logic.
  rewrite int_result_in, wrap32_small by lia.
  rewrite (Hfall s1 Hdebug1).
  rewrite (Hfall (set_remaining (lock_frames_remaining s1 - 1) s1) Hdebug1).
  repeat case_decide; reflexivity.
Qed.

Lemma strict_run_when_bounded (calls : list (option face_detection_t * mask_status_t)) :
  forall (k : Z) (s : statics),
    k + Z.of_nat (length calls) <= 2147483647 ->
    counters_bounded k s ->
    run_calls_strict calls s = Some (run_calls calls s).
Proof.
  induction calls as [| c calls IH]; intros k s Hlen Hb; [reflexivity |].
  cbn [run_calls_strict length] in *.
  rewrite (strict_call_when_bounded c.1 c.2 k s) by (lia || exact Hb).
  unfold run_calls. cbn [fold_left]. fold (run_calls calls (call_statics s c)).
  apply (IH (k + 1)); [lia |].
  apply call_keeps_counters_bounded; [lia | exact Hb].
Qed.

(** A call after the first leaves the streak as the counting left it. *)
Lemma later_call_streak (f : face_detection_t) (r : mask_status_t) (s : statics) :
  history_count f <> 0 ->
  same_result_count (statics_after (apply_temporal_smoothing (Some f) r s))
  = streak_after r s
  /\ previous_result (statics_after (apply_temporal_smoothing (Some f) r s)) = r.
Proof.
  intros Hseeded. rewrite (later_call f r s Hseeded).
  pose proof (count_consecutive_previous r s) as Hprev.
  unfold streak_after.
  set (s1 := count_consecutive r s) in *.
  set (s2 := set_remaining (wrap32 (lock_frames_remaining s1 - 1)) s1).
  destruct (debug_output_lock r s1) as (_ & _ & Hc1 & Hp1).
  destruct (debug_output_lock r s2) as (_ & _ & Hc2 & Hp2).
  unfold locking_logic, fallback, statics_after.
  repeat case_decide; fold s2; cbn [snd]; rewrite ?Hc1, ?Hc2, ?Hp1, ?Hp2;
    simpl; split; first [reflexivity | assumption].
Qed.

(** The same raw status again and again: the streak counts the calls. *)
Lemma streak_counts_equal_calls (f : face_detection_t) (r : mask_status_t) (n : nat) :
  forall s : statics,
    history_count f <> 0 ->
    previous_result s = r ->
    0 <= same_result_count s ->
    same_result_count s + Z.of_nat n <= 2147483647 ->
    same_result_count (run_calls (replicate n (Some f, r)) s)
    = same_result_count s + Z.of_nat n
    /\ previous_result (run_calls (replicate n (Some f, r)) s) = r.
Proof.
  induction n as [| n IH]; intros s Hseeded Hprev Hpos Hmax.
  - unfold run_calls. simpl. split; [lia | exact Hprev].
  - cbn [replicate]. unfold run_calls. cbn [fold_left].
    fold (run_calls (replicate n (Some f, r)) (call_statics s (Some f, r))).
    destruct (later_call_streak f r s Hseeded) as [Hcount' Hprev'].
    assert (Hstreak : streak_after r s = same_result_count s + 1).
    { unfold streak_after, count_consecutive.
      destruct (decide (r = previous_result s)); [| congruence].
      simpl. apply wrap32_small. lia. }
    unfold call_statics at 1 2. cbn [fst snd].
    destruct (IH (statics_after (apply_temporal_smoothing (Some f) r s)))
      as [IHcount IHprev]; [exact Hseeded | exact Hprev' | lia | lia |].
    unfold call_statics. cbn [fst snd]. rewrite IHcount, IHprev, Hcount', Hstreak.
    split; [lia | reflexivity].
Qed.

(** The two first calls of [int_max_mask_calls]: the seeding call leaves
    the static locals alone, the call after it starts the streak. *)
Lemma mask_calls_start :
  apply_temporal_smoothing_strict (Some zero_face) MASK_STATUS_WITH_MASK
    initial_statics
  = Some (MASK_STATUS_WITH_MASK, Some seeded_with_mask, initial_statics)
  /\ call_statics initial_statics (Some zero_face, MASK_STATUS_WITH_MASK)
     = initial_statics
  /\ same_result_count
       (call_statics initial_statics (Some seeded_with_mask, MASK_STATUS_WITH_MASK))
     = 1
  /\ previous_result
       (call_statics initial_statics (Some seeded_with_mask, MASK_STATUS_WITH_MASK))
     = MASK_STATUS_WITH_MASK
  /\ counters_bounded 1
       (call_statics initial_statics (Some seeded_with_mask, MASK_STATUS_WITH_MASK)).
Proof.
  repeat split; try reflexivity; vm_compute; discriminate.
Qed.

(** A seeding call and [n + 1] calls with the same raw status, with
    [n + 1] equal to [INT_MAX]: all defined, and the streak ends at
    [INT_MAX], where one more such call is undefined. *)
Lemma equal_calls_up_to_int_max (n : nat) :
  Z.of_nat n = 2147483646 ->
  let calls := (Some zero_face, MASK_STATUS_WITH_MASK)
               :: (Some seeded_with_mask, MASK_STATUS_WITH_MASK)
               :: replicate n (Some seeded_with_mask, MASK_STATUS_WITH_MASK) in
  run_calls_strict calls initial_statics = Some (run_calls calls initial_statics)
  /\ same_result_count (run_calls calls initial_statics) = 2147483647
  /\ apply_temporal_smoothing_strict (Some seeded_with_mask) MASK_STATUS_WITH_MASK
       (run_calls calls initial_statics)
     = None.
Proof.
  intros Hn calls. subst calls.
  destruct mask_calls_start as (Hseed & Hseed' & Hcount1 & Hprev1 & Hbounded1).
  assert (Hseeded : history_count seeded_with_mask <> 0) by discriminate.
  set (second := (Some seeded_with_mask, MASK_STATUS_WITH_MASK)) in *.
  set (s1 := call_statics initial_statics second) in *.
  assert (Hrun : run_calls ((Some zero_face, MASK_STATUS_WITH_MASK)
                            :: second :: replicate n second) initial_statics
                 = run_calls (replicate n second) s1).
  { unfold run_calls. cbn [fold_left]. rewrite Hseed'. reflexivity. }
  destruct (streak_counts_equal_calls seeded_with_mask MASK_STATUS_WITH_MASK
              n s1 Hseeded Hprev1)
    as [Hcount Hprev]; [lia | lia |].
  fold second in Hcount, Hprev. rewrite <- Hrun in Hcount, Hprev.
  rewrite Hcount1, Hn in Hcount.
  split; [| split; [exact Hcount |]].
  - rewrite Hrun. unfold second at 1. cbn [run_calls_strict fst snd]. rewrite Hseed.
    unfold statics_after at 1. cbn [snd].
    rewrite (strict_call_when_bounded (Some seeded_with_mask)
               MASK_STATUS_WITH_MASK 0 initial_statics)
      by (lia || (unfold counters_bounded; simpl; lia)).
    change (statics_after (apply_temporal_smoothing (Some seeded_with_mask)
                             MASK_STATUS_WITH_MASK initial_statics)) with s1.
    apply (strict_run_when_bounded _ 1 s1); [| exact Hbounded1].
    rewrite length_replicate, Hn. lia.
  - unfold apply_temporal_smoothing_strict.
    destruct (decide (history_count seeded_with_mask = 0)) as [Hz | _];
      [contradiction |].
    unfold count_consecutive_strict. rewrite Hprev.
    destruct (decide (MASK_STATUS_WITH_MASK = MASK_STATUS_WITH_MASK)) as [_ | Hne];
      [| contradiction].
    rewrite Hcount, int_result_out by lia. reflexivity.
Qed.

(** C7 as stated fails under the C rule for signed overflow.  A face
    shows a mask from program start: its record is seeded, then [INT_MAX]
    calls follow with [MASK_STATUS_WITH_MASK].  Every one of these calls
    is defined, and they leave the streak at [INT_MAX]; in the state so
    reached the next call with [MASK_STATUS_WITH_MASK] executes
    [same_result_count++] on [INT_MAX], which is undefined. *)
Lemma streak_overflows_after_int_max_calls :
  run_calls_strict int_max_mask_calls initial_statics
  = Some (run_calls int_max_mask_calls initial_statics)
  /\ same_result_count (run_calls int_max_mask_calls initial_statics) = 2147483647
  /\ apply_temporal_smoothing_strict (Some seeded_with_mask) MASK_STATUS_WITH_MASK
       (run_calls int_max_mask_calls initial_statics)
     = None.
Proof.
  exact (equal_calls_up_to_int_max (Z.to_nat 2147483646)
           (Z2Nat.id 2147483646 (fun Hgt : (0 ?= 2147483646) = Gt =>
              eq_ind Lt (fun c => match c with Lt => True | _ => False end) I Gt Hgt))).
Qed.

(** C7, amended: in every state reached from program start by fewer than
    [INT_MAX] calls (for any faces, the null pointer included, with any of
    the four raw statuses, [MASK_STATUS_UNKNOWN] included), every call is
    defined under the C rule for signed overflow: none of its [++] and
    [--] leaves [int], so that the run up to that state and the call
    itself are those of the embedding with wrap-around, and the call
    returns one of the four enumerators. *)
Theorem smoothing_defined_before_int_max_calls :
  forall (calls : list (option face_detection_t * mask_status_t))
         (face : option face_detection_t) (r : mask_status_t),
    Z.of_nat (length calls) < 2147483647 ->
    run_calls_strict calls initial_statics
    = Some (run_calls calls initial_statics)
    /\ exists (m : mask_status_t) (face' : option face_detection_t) (s' : statics),
         apply_temporal_smoothing_strict face r (run_calls calls initial_statics)
         = Some (m, face', s')
         /\ apply_temporal_smoothing face r (run_calls calls initial_statics)
            = (m, face', s')
         /\ (m = MASK_STATUS_UNKNOWN \/ m = MASK_STATUS_WITH_MASK
             \/ m = MASK_STATUS_WITHOUT_MASK \/ m = MASK_STATUS_INCORRECT_MASK).
Proof.
  intros calls face r Hlen.
  assert (Hinit : counters_bounded 0 initial_statics)
    by (unfold counters_bounded; simpl; lia).
  split.
  - apply (strict_run_when_bounded calls 0); [lia | exact Hinit].
  - pose proof (counters_bounded_run calls 0 initial_statics ltac:(lia) Hinit)
      as Hbounded.
    assert (Hk : 0 + Z.of_nat (length calls) < 2147483647) by lia.
    pose proof (strict_call_when_bounded face r (0 + Z.of_nat (length calls))
                  (run_calls calls initial_statics) Hk Hbounded) as Hcall.
    destruct (apply_temporal_smoothing face r (run_calls calls initial_statics))
      as [[m face'] s'] eqn:Hwrap.
    exists m, face', s'. split; [exact Hcall |]. split; [reflexivity |].
    destruct m; auto.
Qed.

Lemma smoothing_defined_before_int_max_calls_witness :
  let calls := [(Some zero_face, MASK_STATUS_WITHOUT_MASK);
                (Some (init_history MASK_STATUS_WITHOUT_MASK zero_face),
                 MASK_STATUS_WITH_MASK);
                (None, MASK_STATUS_UNKNOWN)] in
  Z.of_nat (length calls) < 2147483647
  /\ run_calls_strict calls initial_statics = Some (run_calls calls initial_statics).
Proof.
  intros calls.
  assert (Hlen : Z.of_nat (length calls) < 2147483647) by (simpl; lia).
  exact (conj Hlen
           (proj1 (smoothing_defined_before_int_max_calls calls None
                     MASK_STATUS_UNKNOWN Hlen))).
Defined.
